(** * Multi-Agent Design System backend ([src/backend/main.py])

    A shallow embedding of the FastAPI application: the pydantic models, the
    two stub agents, the background pipeline and the request handlers, over a
    document store modelled as a finite map.  Every [async def] of the source
    is a coroutine: a finite tree of the calls it makes on its environment
    (store driver, clock, standard output, background task list), which can be
    run to completion against a world or resumed one call at a time.

    Modelled: the pydantic models, [ai_agent_1_generate_design],
    [ai_agent_2_review_design], [process_ai_pipeline], [create_project],
    [get_project], [approve_project], [regenerate_design], [delete_project]
    and [get_statistics].  The root, health and listing routes are left out.
    Datetimes are kept in the store as they were written: the rounding of a
    stored datetime to the millisecond by the driver is not modelled. *)

From Stdlib Require Import ZArith String Ascii List Bool Lia.
From stdpp Require Import base option list strings gmap fin_maps pretty.

Local Open Scope string_scope.
Local Open Scope list_scope.

(** ** Python strings

    A [str] is modelled as a Rocq [string].  [lower] lowers the ASCII letters
    [A]-[Z] and leaves every other character alone; [str_in needle hay] is the
    operator [needle in hay]. *)

Definition ascii_lower (c : ascii) : ascii :=
  let n := N_of_ascii c in
  if ((65 <=? n) && (n <=? 90))%N then ascii_of_N (n + 32) else c.

Fixpoint lower (s : string) : string :=
  match s with
  | EmptyString => EmptyString
  | String c s' => String (ascii_lower c) (lower s')
  end.

Fixpoint str_in (needle hay : string) {struct hay} : bool :=
  String.prefix needle hay ||
  match hay with
  | EmptyString => false
  | String _ hay' => str_in needle hay'
  end.

(** ** Pydantic models *)

(** [datetime] values are instants on an integer time line. *)
Definition datetime := Z.

Module DesignComponent.
Record t := mk {
  component : string;
  structure : string;
  styling : string;
  reasoning : string
}.
End DesignComponent.

Module TechnicalSpecs.
Record t := mk {
  framework : string;
  styling : string;
  responsive : bool;
  accessibility : string
}.
End TechnicalSpecs.

Module Design.
Record t := mk {
  timestamp : datetime;
  designs : list DesignComponent.t;
  technical_specs : TechnicalSpecs.t
}.
End Design.

Module Review.
Record t := mk {
  timestamp : datetime;
  score : Z;
  status : string;
  strengths : list string;
  issues : list string;
  suggestions : list string
}.
End Review.

Module HumanApproval.
Record t := mk {
  approved : bool;
  feedback : string;
  timestamp : datetime;
  approver : string
}.
End HumanApproval.

Module ProjectCreate.
Record t := mk {
  name : string;
  requirements : string
}.
End ProjectCreate.

Module ProjectResponse.
Record t := mk {
  id : string;
  name : string;
  requirements : string;
  status : string;
  created_at : datetime;
  design : option Design.t;
  review : option Review.t;
  human_approval : option HumanApproval.t
}.
End ProjectResponse.

(** [feedback: Optional[str]]: the request may carry [None]. *)
Module ApprovalRequest.
Record t := mk {
  approved : bool;
  feedback : option string
}.
End ApprovalRequest.

(** ** Stored documents

    A document of [projects_collection], keyed by its [_id] in the store.
    [error_message] is the one key that no document has until the pipeline's
    exception handler sets it. *)
Module Document.
Record t := mk {
  name : string;
  requirements : string;
  status : string;
  created_at : datetime;
  design : option Design.t;
  review : option Review.t;
  human_approval : option HumanApproval.t;
  error_message : option string
}.
End Document.

(** One key of a [$set] update. *)
Inductive field_set :=
| SetStatus (s : string)
| SetDesign (d : option Design.t)
| SetReview (r : option Review.t)
| SetHumanApproval (h : option HumanApproval.t)
| SetErrorMessage (m : string).

Definition apply_set (d : Document.t) (f : field_set) : Document.t :=
  match f with
  | SetStatus s =>
      Document.mk (Document.name d) (Document.requirements d) s (Document.created_at d)
        (Document.design d) (Document.review d) (Document.human_approval d)
        (Document.error_message d)
  | SetDesign x =>
      Document.mk (Document.name d) (Document.requirements d) (Document.status d)
        (Document.created_at d) x (Document.review d) (Document.human_approval d)
        (Document.error_message d)
  | SetReview x =>
      Document.mk (Document.name d) (Document.requirements d) (Document.status d)
        (Document.created_at d) (Document.design d) x (Document.human_approval d)
        (Document.error_message d)
  | SetHumanApproval x =>
      Document.mk (Document.name d) (Document.requirements d) (Document.status d)
        (Document.created_at d) (Document.design d) (Document.review d) x
        (Document.error_message d)
  | SetErrorMessage m =>
      Document.mk (Document.name d) (Document.requirements d) (Document.status d)
        (Document.created_at d) (Document.design d) (Document.review d)
        (Document.human_approval d) (Some m)
  end.

Definition apply_sets (sets : list field_set) (d : Document.t) : Document.t :=
  fold_left apply_set sets d.

(** The [ProjectResponse] built from a document once its [id] key is set: the
    keys the model declares are kept, any other key of the document is
    ignored. *)
Definition response_of (project_id : string) (d : Document.t) : ProjectResponse.t :=
  ProjectResponse.mk project_id (Document.name d) (Document.requirements d)
    (Document.status d) (Document.created_at d) (Document.design d)
    (Document.review d) (Document.human_approval d).

(** ** Payloads of the two stub agents *)

(** The value [ai_agent_1_generate_design] returns when its clock reading is
    [now]. *)
Definition design_payload (now : datetime) : Design.t :=
  let designs := [
    DesignComponent.mk
      "Header Component"
      "Logo + Navigation Menu + CTA Button + Mobile Hamburger"
      "Dark gradient (slate-900 to slate-800), white text, glass morphism effect, sticky positioning"
      "Modern header with clear visual hierarchy. Sticky positioning ensures constant navigation access. Glass morphism adds premium feel.";
    DesignComponent.mk
      "Hero Section"
      "Large Heading + Subheading + Hero Image/Video + Dual CTA Buttons + Trust Indicators"
      "Full viewport height, gradient background, bold typography (4xl-6xl), animated elements, responsive grid"
      "Eye-catching hero section designed to immediately capture attention and communicate value proposition. Dual CTAs provide primary and secondary actions.";
    DesignComponent.mk
      "Features Grid"
      "3-column grid with icon cards, each containing: Icon + Title + Description + Learn More link"
      "Card-based layout with shadows, hover lift effect, consistent spacing (gap-6), rounded corners (rounded-xl)"
      "Scannable layout that highlights key features. Card design allows easy content digestion. Hover effects add interactivity.";
    DesignComponent.mk
      "Social Proof Section"
      "Customer testimonials carousel + Client logos grid + Statistics counter"
      "Alternating background color, contained width, auto-scrolling carousel, fade animations"
      "Builds trust through social validation. Statistics provide concrete proof of value. Testimonials add human element.";
    DesignComponent.mk
      "Footer Component"
      "Multi-column layout: Company Info + Quick Links + Resources + Newsletter Signup + Social Links"
      "Dark background (slate-900), organized columns, subtle borders, responsive stack on mobile"
      "Comprehensive footer providing easy access to all important links and information. Newsletter signup captures leads."
  ] in
  let technical_specs :=
    TechnicalSpecs.mk
      "React 18 with TypeScript"
      "Tailwind CSS v3 with custom theme extensions"
      true
      "WCAG 2.1 AA compliant with ARIA labels, semantic HTML, keyboard navigation support" in
  Design.mk now designs technical_specs.

(** The points a check costs when it fails. *)
Definition penalty (failed : bool) (points : Z) : Z := if failed then points else 0%Z.

(** The value [ai_agent_2_review_design design _] returns when its clock
    reading is [now]: the score starts at 85 and each failed check appends an
    issue and subtracts its penalty. *)
Definition review_payload (design : Design.t) (now : datetime) : Review.t :=
  let score := 85%Z in
  let issues : list string := [] in
  let suggestions : list string := [] in
  let strengths := [
    "Well-structured component hierarchy with clear separation of concerns";
    "Responsive design approach ensures compatibility across all devices";
    "Accessibility considerations properly integrated from the start";
    "Modern visual aesthetic aligned with current design trends";
    "Comprehensive technical specifications provided";
    "Each component has clear reasoning justifying design decisions"
  ] in
  let component_count := length (Design.designs design) in
  let '(issues, score) :=
    if (component_count <? 3)%nat
    then ((issues ++ ["Limited number of components may not cover all user needs"])%list,
          (score - 10)%Z)
    else (issues, score) in
  let '(issues, score) :=
    if negb (TechnicalSpecs.responsive (Design.technical_specs design))
    then ((issues ++ ["CRITICAL: Design must be responsive for mobile users"])%list,
          (score - 20)%Z)
    else (issues, score) in
  let '(issues, score) :=
    if negb (str_in "accessibility"
               (lower (TechnicalSpecs.accessibility (Design.technical_specs design))))
    then ((issues ++ ["Accessibility standards not clearly defined"])%list,
          (score - 15)%Z)
    else (issues, score) in
  let suggestions := (suggestions ++ [
    "Consider adding loading states and skeleton screens for better perceived performance";
    "Implement micro-animations for improved user engagement and feedback";
    "Add dark mode toggle for user preference accommodation";
    "Include error boundary components for graceful error handling";
    "Consider implementing progressive image loading for performance";
    "Add A/B testing hooks for future optimization";
    "Include analytics tracking for user behavior insights"
  ])%list in
  let status := if (80 <=? score)%Z then "approved" else "needs_revision" in
  Review.mk now score status strengths issues suggestions.


(** ** Exceptions

    The three kinds of exception the handlers can see.  All of them are
    instances of Python's [Exception]; only the first is an [HTTPException]. *)
Inductive exn :=
| HTTPException (status_code : Z) (detail : string)
| InvalidId (msg : string)
| PyMongoError (msg : string).

(** ** The external collaborators

    [bson.ObjectId] and the text of an [HTTPException] belong to libraries
    outside the repository; the handlers only rely on the interface below.
    [ObjectId s] either raises [InvalidId] with a message or yields an id,
    [str_oid] is [str] on ids, and parsing the text of an id gives it back. *)
Class Driver := {
  oid : Type;
  #[global] oid_eq_dec :: EqDecision oid;
  #[global] oid_countable :: Countable oid;
  ObjectId : string -> string + oid;
  str_oid : oid -> string;
  ObjectId_str : forall o, ObjectId (str_oid o) = inr o;
  str_HTTPException : Z -> string -> string
}.

(** A concrete driver, used to run the model: the ids are the 24-character
    lower-case hexadecimal strings, [ObjectId] accepts either case, and an
    [HTTPException] prints as its status code and detail. *)

Definition is_lower_hex (c : ascii) : bool :=
  let n := N_of_ascii c in
  ((48 <=? n) && (n <=? 57) || (97 <=? n) && (n <=? 102))%N.

Fixpoint all_lower_hex (s : string) : bool :=
  match s with
  | EmptyString => true
  | String c s' => is_lower_hex c && all_lower_hex s'
  end.

Definition is_hex24 (s : string) : bool :=
  (String.length s =? 24)%nat && all_lower_hex s.

Definition hex_oid : Type := { s : string | Is_true (is_hex24 s) }.

Definition hex_ObjectId (s : string) : string + hex_oid :=
  match decide (Is_true (is_hex24 (lower s))) with
  | left valid => inr (lower s ↾ valid)
  | right _ => inl (s +:+ " is not a valid ObjectId, it must be a 12-byte input or a 24-character hex string")
  end.

Lemma ascii_lower_hex (c : ascii) : is_lower_hex c = true -> ascii_lower c = c.
Proof.
  destruct c as [[] [] [] [] [] [] [] []]; vm_compute; intros E;
    first [reflexivity | discriminate E].
Qed.

Lemma lower_all_lower_hex (s : string) : all_lower_hex s = true -> lower s = s.
Proof.
  induction s as [|c s IH]; simpl; [reflexivity|].
  intros [Hc Hs]%andb_true_iff. by rewrite ascii_lower_hex, IH.
Qed.

Lemma hex_ObjectId_str (o : hex_oid) : hex_ObjectId (`o) = inr o.
Proof.
  destruct o as [s Hs]. unfold hex_ObjectId. simpl.
  assert (lower s = s) as ->.
  { apply lower_all_lower_hex. apply Is_true_true in Hs.
    unfold is_hex24 in Hs. by apply andb_true_iff in Hs as [_ ?]. }
  destruct (decide _) as [Hs'|[]]; [|exact Hs].
  f_equal. by apply (sig_eq_pi _).
Qed.

Definition hex_driver : Driver := {|
  oid := hex_oid;
  ObjectId := hex_ObjectId;
  str_oid := proj1_sig;
  ObjectId_str := hex_ObjectId_str;
  str_HTTPException := fun status_code detail => pretty status_code +:+ ": " +:+ detail
|}.

Section Backend.
Context `{Driver}.

(** [str(e)] *)
Definition str_exn (e : exn) : string :=
  match e with
  | HTTPException status_code detail => str_HTTPException status_code detail
  | InvalidId msg => msg
  | PyMongoError msg => msg
  end.

(** ** Calls on the environment *)

(** A call and the type of what it returns. *)
Inductive call : Type -> Type :=
| FindOne (o : oid) : call (option Document.t)
| UpdateOne (o : oid) (sets : list field_set) : call unit
| InsertOne (d : Document.t) : call oid
| UtcNow : call datetime
| Sleep (seconds : Z) : call unit
| AddTask (project_id requirements : string) : call unit
| Print (line : string) : call unit.

(** The world a coroutine runs in.  [faults], [clock] and [ids] are what the
    environment will answer: whether the n-th coming driver call raises (and
    with which message), the n-th coming reading of [datetime.utcnow()], and
    the n-th coming generated [_id]. *)
Record world := World {
  db : gmap oid Document.t;
  background_tasks : list (string * string);
  stdout : list string;
  faults : nat -> option string;
  clock : nat -> datetime;
  ids : nat -> oid
}.

Definition shift {A} (s : nat -> A) : nat -> A := fun n => s (S n).

Definition set_db (w : world) (m : gmap oid Document.t) : world :=
  World m (background_tasks w) (stdout w) (faults w) (clock w) (ids w).

Definition next_fault (w : world) : world :=
  World (db w) (background_tasks w) (stdout w) (shift (faults w)) (clock w) (ids w).

Definition next_clock (w : world) : world :=
  World (db w) (background_tasks w) (stdout w) (faults w) (shift (clock w)) (ids w).

Definition next_id (w : world) : world :=
  World (db w) (background_tasks w) (stdout w) (faults w) (clock w) (shift (ids w)).

(** What one call does to the world and what it answers.  A driver call
    raises when the environment says so; [update_one] on an absent [_id]
    matches nothing and changes nothing; [insert_one] raises on a duplicate
    [_id]. *)
Definition perform {X} (c : call X) (w : world) : (exn + X) * world :=
  match c in call X return (exn + X) * world with
  | FindOne o =>
      match faults w 0 with
      | Some m => (inl (PyMongoError m), next_fault w)
      | None => (inr (db w !! o), next_fault w)
      end
  | UpdateOne o sets =>
      match faults w 0 with
      | Some m => (inl (PyMongoError m), next_fault w)
      | None => (inr tt, set_db (next_fault w) (alter (apply_sets sets) o (db w)))
      end
  | InsertOne d =>
      match faults w 0 with
      | Some m => (inl (PyMongoError m), next_fault w)
      | None =>
          let o := ids w 0 in
          match db w !! o with
          | Some _ => (inl (PyMongoError "E11000 duplicate key error"), next_id (next_fault w))
          | None => (inr o, set_db (next_id (next_fault w)) (<[o := d]> (db w)))
          end
      end
  | UtcNow => (inr (clock w 0), next_clock w)
  | Sleep _ => (inr tt, w)
  | AddTask project_id requirements =>
      (inr tt,
       World (db w) (background_tasks w ++ [(project_id, requirements)])%list (stdout w)
         (faults w) (clock w) (ids w))
  | Print line =>
      (inr tt,
       World (db w) (background_tasks w) (stdout w ++ [line])%list
         (faults w) (clock w) (ids w))
  end.

(** ** Coroutines *)

Inductive coro (A : Type) : Type :=
| Ret (a : A)
| Raise (e : exn)
| Vis {X : Type} (c : call X) (k : exn + X -> coro A).
Arguments Ret {A} a.
Arguments Raise {A} e.
Arguments Vis {A X} c k.

Fixpoint coro_bind {A B} (m : coro A) (f : A -> coro B) : coro B :=
  match m with
  | Ret a => f a
  | Raise e => Raise e
  | Vis c k => Vis c (fun r => coro_bind (k r) f)
  end.

#[global] Instance coro_mret : MRet coro := fun A a => Ret a.
#[global] Instance coro_mbind : MBind coro := fun A B f m => coro_bind m f.

(** [await c]: the answer of the call, or the exception it raised. *)
Definition await {X} (c : call X) : coro X :=
  Vis c (fun r => match r with inl e => Raise e | inr x => Ret x end).

(** [try: m except ... as e: h e] *)
Fixpoint try_except {A} (m : coro A) (h : exn -> coro A) : coro A :=
  match m with
  | Ret a => Ret a
  | Raise e => h e
  | Vis c k => Vis c (fun r => try_except (k r) h)
  end.

(** Running a coroutine to its end. *)
Fixpoint run {A} (m : coro A) (w : world) : (exn + A) * world :=
  match m with
  | Ret a => (inr a, w)
  | Raise e => (inl e, w)
  | Vis c k => let '(r, w') := perform c w in run (k r) w'
  end.

(** [ObjectId(project_id)] inside a coroutine *)
Definition ObjectId_ (project_id : string) : coro oid :=
  match ObjectId project_id with
  | inl msg => Raise (InvalidId msg)
  | inr o => Ret o
  end.

(** ** AI Agent 1: Design Generator *)

Definition ai_agent_1_generate_design (requirements : string) : coro Design.t :=
  _ ← await (Sleep 2);
  now ← await UtcNow;
  mret (design_payload now).

(** ** AI Agent 2: Design Reviewer *)

Definition ai_agent_2_review_design (design : Design.t) (requirements : string)
  : coro Review.t :=
  _ ← await (Sleep 2);
  now ← await UtcNow;
  mret (review_payload design now).

(** ** Background task: the AI processing pipeline *)

(** The suite of the [try] statement. *)
Definition pipeline_try (project_id requirements : string) : coro unit :=
  o ← ObjectId_ project_id;
  _ ← await (UpdateOne o [SetStatus "generating"]);
  design ← ai_agent_1_generate_design requirements;
  o ← ObjectId_ project_id;
  _ ← await (UpdateOne o [SetDesign (Some design); SetStatus "reviewing"]);
  review ← ai_agent_2_review_design design requirements;
  let new_status :=
    if String.eqb (Review.status review) "approved"
    then "pending_approval" else "needs_revision" in
  o ← ObjectId_ project_id;
  await (UpdateOne o [SetReview (Some review); SetStatus new_status]).

(** The suite of [except Exception as e]. *)
Definition pipeline_except (project_id : string) (e : exn) : coro unit :=
  _ ← await (Print ("Error in AI pipeline: " +:+ str_exn e));
  o ← ObjectId_ project_id;
  await (UpdateOne o [SetStatus "error"; SetErrorMessage (str_exn e)]).

Definition process_ai_pipeline (project_id requirements : string) : coro unit :=
  try_except (pipeline_try project_id requirements) (pipeline_except project_id).

(** ** API routes *)

(** The [{"message": ..., "project_id": ...}] replies. *)
Record reply := Reply { message : string; reply_project_id : string }.

Definition create_project (project : ProjectCreate.t) : coro ProjectResponse.t :=
  now ← await UtcNow;
  let project_data :=
    Document.mk (ProjectCreate.name project) (ProjectCreate.requirements project)
      "pending" now None None None None in
  inserted_id ← await (InsertOne project_data);
  let project_id := str_oid inserted_id in
  _ ← await (AddTask project_id (ProjectCreate.requirements project));
  mret (response_of project_id project_data).

Definition get_project (project_id : string) : coro ProjectResponse.t :=
  try_except
    (o ← ObjectId_ project_id;
     project ← await (FindOne o);
     match project with
     | None => Raise (HTTPException 404 "Project not found")
     | Some project => mret (response_of (str_oid o) project)
     end)
    (fun e => Raise (HTTPException 400 (str_exn e))).

Definition approve_project (project_id : string) (approval : ApprovalRequest.t)
  : coro reply :=
  try_except
    (o ← ObjectId_ project_id;
     project ← await (FindOne o);
     match project with
     | None => Raise (HTTPException 404 "Project not found")
     | Some project =>
         if negb (String.eqb (Document.status project) "pending_approval")
         then Raise (HTTPException 400
                       ("Project cannot be approved in current status: "
                        +:+ Document.status project))
         else
           now ← await UtcNow;
           let human_approval :=
             HumanApproval.mk (ApprovalRequest.approved approval)
               (default "" (ApprovalRequest.feedback approval)) now "Human Reviewer" in
           let new_status :=
             if ApprovalRequest.approved approval then "approved" else "rejected" in
           o ← ObjectId_ project_id;
           _ ← await (UpdateOne o [SetHumanApproval (Some human_approval);
                                   SetStatus new_status]);
           mret (Reply ("Project " +:+ new_status) project_id)
     end)
    (fun e =>
       match e with
       | HTTPException _ _ => Raise e
       | _ => Raise (HTTPException 400 (str_exn e))
       end).

Definition regenerate_design (project_id : string) : coro reply :=
  try_except
    (o ← ObjectId_ project_id;
     project ← await (FindOne o);
     match project with
     | None => Raise (HTTPException 404 "Project not found")
     | Some project =>
         o ← ObjectId_ project_id;
         _ ← await (UpdateOne o [SetStatus "pending"; SetDesign None;
                                 SetReview None; SetHumanApproval None]);
         _ ← await (AddTask project_id (Document.requirements project));
         mret (Reply "Design regeneration started" project_id)
     end)
    (fun e => Raise (HTTPException 400 (str_exn e))).

(** ** The running server

    Requests are served one at a time; the tasks a request leaves on its
    [BackgroundTasks] become pipeline coroutines, which are then resumed one
    call at a time, in any order, between further requests. *)

Inductive request :=
| ReqCreate (project : ProjectCreate.t)
| ReqGet (project_id : string)
| ReqApprove (project_id : string) (approval : ApprovalRequest.t)
| ReqRegenerate (project_id : string).

Definition serve (rq : request) : coro unit :=
  match rq with
  | ReqCreate project => _ ← create_project project; mret tt
  | ReqGet project_id => _ ← get_project project_id; mret tt
  | ReqApprove project_id approval => _ ← approve_project project_id approval; mret tt
  | ReqRegenerate project_id => _ ← regenerate_design project_id; mret tt
  end.

Record system := System {
  sdb : gmap oid Document.t;
  procs : list (string * coro unit)
}.

Definition spawn (tasks : list (string * string)) : list (string * coro unit) :=
  map (fun t => (t.1, process_ai_pipeline t.1 t.2)) tasks.

Definition finished {A} (c : coro A) : Prop :=
  match c with
  | Vis _ _ => False
  | _ => True
  end.

(** A single pipeline run per project: a regeneration is only requested for
    a project that has no pipeline run in flight. *)
Definition allowed (s : system) (rq : request) : Prop :=
  match rq with
  | ReqRegenerate project_id =>
      forall p, p ∈ procs s -> ObjectId p.1 <> ObjectId project_id
  | _ => True
  end.

Inductive step : system -> system -> Prop :=
| step_request s rq w :
    db w = sdb s -> background_tasks w = [] -> allowed s rq ->
    step s (System (db (run (serve rq) w).2)
                   (procs s ++ spawn (background_tasks (run (serve rq) w).2)))
| step_resume s l1 l2 project_id X (c : call X) k w :
    procs s = l1 ++ (project_id, Vis c k) :: l2 ->
    db w = sdb s -> background_tasks w = [] ->
    step s (System (db (perform c w).2)
                   (l1 ++ (project_id, k (perform c w).1) :: l2
                       ++ spawn (background_tasks (perform c w).2)))
| step_exit s l1 l2 project_id c :
    procs s = l1 ++ (project_id, c) :: l2 -> finished c ->
    step s (System (sdb s) (l1 ++ l2)).

Inductive reachable : system -> Prop :=
| reachable_init : reachable (System ∅ [])
| reachable_step s s' : reachable s -> step s s' -> reachable s'.

(** ** Stage discipline of a document *)

(** Each payload is absent until its stage has completed. *)
Definition staged (d : Document.t) : Prop :=
  (Document.status d = "pending" \/ Document.status d = "generating" ->
   Document.design d = None) /\
  (Document.status d = "pending" \/ Document.status d = "generating" \/
   Document.status d = "reviewing" -> Document.review d = None) /\
  (forall h, Document.human_approval d = Some h ->
     Document.status d = if HumanApproval.approved h then "approved" else "rejected").

(** The state [create_project] and [regenerate_design] leave a document in. *)
Definition blank (d : Document.t) : Prop :=
  Document.status d = "pending" /\ Document.design d = None /\
  Document.review d = None /\ Document.human_approval d = None.

(** [safe c o d]: while the document under [o] is [d], every way of resuming
    [c] touches no other document, queues nothing, keeps the document staged,
    and the document cannot be approved as long as [c] has calls left. *)
Fixpoint safe (c : coro unit) (o : oid) (d : Document.t) : Prop :=
  match c with
  | Vis c' k =>
      Document.status d <> "pending_approval" /\
      forall w, db w !! o = Some d ->
        (forall o', o' <> o -> db (perform c' w).2 !! o' = db w !! o') /\
        background_tasks (perform c' w).2 = background_tasks w /\
        exists d', db (perform c' w).2 !! o = Some d' /\ staged d' /\
                   safe (k (perform c' w).1) o d'
  | _ => True
  end.

(** The invariant of the running server. *)
Definition invariant (s : system) : Prop :=
  (forall o d, sdb s !! o = Some d -> staged d) /\
  (forall p, p ∈ procs s ->
     exists o d, ObjectId p.1 = inr o /\ sdb s !! o = Some d /\ safe p.2 o d) /\
  NoDup ((fun p => ObjectId p.1) <$> procs s).

(** ** Routes outside the pipeline

    [delete_project] and [get_statistics] use two driver methods that the
    pipeline and the routes above never call.  They are written directly as
    transformers of the world, in the shape [run] gives to a coroutine. *)

Definition action (A : Type) : Type := world -> (exn + A) * world.

Definition action_ret {A} (a : A) : action A := fun w => (inr a, w).

Definition action_raise {A} (e : exn) : action A := fun w => (inl e, w).

Definition action_bind {A B} (m : action A) (f : A -> action B) : action B :=
  fun w =>
    match m w with
    | (inr a, w') => f a w'
    | (inl e, w') => (inl e, w')
    end.

(** [try: m except Exception as e: h e] *)
Definition action_try {A} (m : action A) (h : exn -> action A) : action A :=
  fun w =>
    match m w with
    | (inr a, w') => (inr a, w')
    | (inl e, w') => h e w'
    end.

Notation "'do' x <- m ; k" := (action_bind m (fun x => k))
  (at level 10, x name, m at level 100, k at level 200, only parsing).

(** [delete_one({"_id": o})]; the answer is [deleted_count]. *)
Definition delete_one (o : oid) : action Z :=
  fun w =>
    match faults w 0 with
    | Some m => (inl (PyMongoError m), next_fault w)
    | None =>
        match db w !! o with
        | Some _ => (inr 1%Z, set_db (next_fault w) (delete o (db w)))
        | None => (inr 0%Z, next_fault w)
        end
    end.

(** A query on the [status] key: [None] is the empty query [{}], which every
    document matches. *)
Definition matches (query : option string) (d : Document.t) : bool :=
  match query with
  | None => true
  | Some status => String.eqb (Document.status d) status
  end.

Definition count (query : option string) (m : gmap oid Document.t) : nat :=
  size (filter (fun kv => Is_true (matches query kv.2)) m).

(** [count_documents(query)] *)
Definition count_documents (query : option string) : action Z :=
  fun w =>
    match faults w 0 with
    | Some m => (inl (PyMongoError m), next_fault w)
    | None => (inr (Z.of_nat (count query (db w))), next_fault w)
    end.

Definition delete_project (project_id : string) : action reply :=
  action_try
    (do o <- run (ObjectId_ project_id);
     do deleted_count <- delete_one o;
     if (deleted_count =? 0)%Z
     then action_raise (HTTPException 404 "Project not found")
     else action_ret (Reply "Project deleted successfully" project_id))
    (fun e => action_raise (HTTPException 400 (str_exn e))).

(** The reply of [get_statistics]. *)
Record statistics := Statistics {
  total_projects : Z;
  pending_approval : Z;
  approved : Z;
  rejected : Z;
  timestamp : datetime
}.

Definition get_statistics : action statistics :=
  do total_projects <- count_documents None;
  do pending <- count_documents (Some "pending_approval");
  do approved <- count_documents (Some "approved");
  do rejected <- count_documents (Some "rejected");
  do now <- run (await UtcNow);
  action_ret (Statistics total_projects pending approved rejected now).

(** ** Records the pipeline cannot make approvable *)

(** No human approval, and a status from which [approve_project] refuses. *)
Definition unapproved (d : Document.t) : Prop :=
  Document.human_approval d = None /\
  (Document.status d = "pending" \/ Document.status d = "generating" \/
   Document.status d = "reviewing" \/ Document.status d = "needs_revision" \/
   Document.status d = "error").

(** [keeps P c o d]: while the document under [o] is [d], every way of
    resuming [c] leaves under [o] a document that satisfies [P]. *)
Fixpoint keeps (P : Document.t -> Prop) (c : coro unit) (o : oid) (d : Document.t)
  : Prop :=
  match c with
  | Vis c' k =>
      forall w, db w !! o = Some d ->
      forall d', db (perform c' w).2 !! o = Some d' ->
        P d' /\ keeps P (k (perform c' w).1) o d'
  | _ => True
  end.

Definition never_approvable (s : system) : Prop :=
  (forall o d, sdb s !! o = Some d -> unapproved d) /\
  (forall p, p ∈ procs s ->
     forall o d, ObjectId p.1 = inr o -> sdb s !! o = Some d ->
       keeps unapproved p.2 o d).

(** The two moves of the server as functions: serving a request, and
    resuming the pipeline run at the head of the list. *)
Definition serve_step (s : system) (rq : request) (w : world) : system :=
  System (db (run (serve rq) w).2)
         (procs s ++ spawn (background_tasks (run (serve rq) w).2)).

Definition resume_head (s : system) (w : world) : system :=
  match procs s with
  | (project_id, Vis c k) :: rest =>
      System (db (perform c w).2)
             ((project_id, k (perform c w).1) :: rest
                ++ spawn (background_tasks (perform c w).2))
  | _ => s
  end.

End Backend.

Arguments Ret {H A} a.
Arguments Raise {H A} e.
Arguments Vis {H A X} c k.

(** ** Sample worlds for the concrete driver *)

Section Samples.
#[local] Existing Instance hex_driver.

Definition oid0 : hex_oid := "0123456789abcdef01234567" ↾ I.

(** Empty store, a store that answers every call, a clock that reads 0, 1,
    2, ... and a generator of ids that yields [oid0]. *)
Definition quiet_world : world :=
  World ∅ [] [] (fun _ => None) (fun n => Z.of_nat n) (fun _ => oid0).

Definition shop : ProjectCreate.t := ProjectCreate.mk "shop" "a web shop".

(** The world after [create_project shop]. *)
Definition shop_created : world := (run (create_project shop) quiet_world).2.

(** A world whose store holds one record that awaits approval. *)
Definition shop_awaiting : world :=
  World {[ oid0 := Document.mk "shop" "a web shop" "pending_approval" 0%Z
                     (Some (design_payload 1%Z)) None None None ]}
        [] [] (fun _ => None) (fun n => Z.of_nat n) (fun _ => oid0).

(** The created project in a store that answers the first call and then
    refuses every call. *)
Definition shop_store_lost : world :=
  World (db shop_created) [] []
        (fun n => match n with O => None | S _ => Some "connection closed" end)
        (fun n => Z.of_nat n) (fun _ => oid0).

(** The created project in a store that refuses the first call only. *)
Definition shop_store_blip : world :=
  World (db shop_created) [] []
        (fun n => match n with O => Some "connection reset" | S _ => None end)
        (fun n => Z.of_nat n) (fun _ => oid0).

(** A store that refuses every call. *)
Definition store_down : world :=
  World ∅ [] [] (fun _ => Some "connection refused") (fun n => Z.of_nat n)
        (fun _ => oid0).

(** A clock that is five ticks ahead of the one of [quiet_world]. *)
Definition later_world : world :=
  World ∅ [] [] (fun _ => None) (fun n => Z.of_nat n + 5)%Z (fun _ => oid0).

(** A design with the five generated components whose accessibility text
    names the keyword. *)
Definition keyword_design : Design.t :=
  Design.mk 0%Z (Design.designs (design_payload 0%Z))
    (TechnicalSpecs.mk "React 18 with TypeScript" "Tailwind CSS v3" true
       "Accessibility: WCAG 2.1 AA").

(** The server after the create request and after the first call of the
    pipeline run it started. *)
Definition server_created : system := serve_step (System ∅ []) (ReqCreate shop) quiet_world.

Definition server_generating : system :=
  resume_head server_created (set_db quiet_world (sdb server_created)).

(** A world that sees the store of [server_generating]. *)
Definition generating_world : world := set_db quiet_world (sdb server_generating).

End Samples.

Section BackendProofs.
Context `{Driver}.

(** ** Running coroutines: general facts *)

Lemma run_bind {A B} (m : coro A) (f : A -> coro B) (w : world) :
  run (m ≫= f) w =
  match run m w with
  | (inr a, w') => run (f a) w'
  | (inl e, w') => (inl e, w')
  end.
Proof.
  revert w. induction m as [a|e|X c k IH]; intros w; simpl; try reflexivity.
  destruct (perform c w) as [r w']. apply IH.
Qed.

Lemma run_try_except {A} (m : coro A) (h : exn -> coro A) (w : world) :
  run (try_except m h) w =
  match run m w with
  | (inr a, w') => (inr a, w')
  | (inl e, w') => run (h e) w'
  end.
Proof.
  revert w. induction m as [a|e|X c k IH]; intros w; simpl; try reflexivity.
  destruct (perform c w) as [r w']. apply IH.
Qed.

Lemma run_ai_agent_1 (requirements : string) (w : world) :
  run (ai_agent_1_generate_design requirements) w
  = (inr (design_payload (clock w 0)), next_clock w).
Proof. reflexivity. Qed.

Lemma run_ai_agent_2 (design : Design.t) (requirements : string) (w : world) :
  run (ai_agent_2_review_design design requirements) w
  = (inr (review_payload design (clock w 0)), next_clock w).
Proof. reflexivity. Qed.

Lemma alter_present (f : Document.t -> Document.t) (m : gmap oid Document.t) o d :
  m !! o = Some d -> alter f o m = <[o := f d]> m.
Proof.
  intros Hd. apply map_eq. intros o'. rewrite lookup_alter, lookup_insert.
  destruct (decide (o = o')) as [->|]; [by rewrite Hd|done].
Qed.

(** ** The reviewer's score *)

Lemma review_payload_score (design : Design.t) (now : datetime) :
  Review.score (review_payload design now) =
  (85 - penalty (length (Design.designs design) <? 3)%nat 10
      - penalty (negb (TechnicalSpecs.responsive (Design.technical_specs design))) 20
      - penalty (negb (str_in "accessibility"
                         (lower (TechnicalSpecs.accessibility
                                   (Design.technical_specs design))))) 15)%Z.
Proof.
  unfold review_payload, penalty.
  destruct (length (Design.designs design) <? 3)%nat,
    (TechnicalSpecs.responsive (Design.technical_specs design)),
    (str_in "accessibility" _); reflexivity.
Qed.

Lemma review_payload_status (design : Design.t) (now : datetime) :
  Review.status (review_payload design now) =
  if (80 <=? Review.score (review_payload design now))%Z
  then "approved" else "needs_revision".
Proof.
  unfold review_payload.
  destruct (length (Design.designs design) <? 3)%nat,
    (TechnicalSpecs.responsive (Design.technical_specs design)),
    (str_in "accessibility" _); reflexivity.
Qed.

(** C5. The reviewer returns a review whose score is 85 minus 10 when the
    design has fewer than 3 components, minus 20 when [responsive] is false,
    minus 15 when the lowered [accessibility] text does not contain
    "accessibility"; its status is "approved" from 80 up.  With 5 components,
    a responsive design and the keyword present, the score is 85 and the
    status "approved". *)
Theorem review_score_rule (design : Design.t) (requirements : string) (w : world) :
  exists r,
    (run (ai_agent_2_review_design design requirements) w).1 = inr r /\
    Review.score r =
      (85 - penalty (length (Design.designs design) <? 3)%nat 10
          - penalty (negb (TechnicalSpecs.responsive (Design.technical_specs design))) 20
          - penalty (negb (str_in "accessibility"
                             (lower (TechnicalSpecs.accessibility
                                       (Design.technical_specs design))))) 15)%Z /\
    Review.status r =
      (if (80 <=? Review.score r)%Z then "approved" else "needs_revision") /\
    (length (Design.designs design) = 5%nat ->
     TechnicalSpecs.responsive (Design.technical_specs design) = true ->
     str_in "accessibility"
       (lower (TechnicalSpecs.accessibility (Design.technical_specs design))) = true ->
     Review.score r = 85%Z /\ Review.status r = "approved").
Proof.
  exists (review_payload design (clock w 0)).
  rewrite run_ai_agent_2. split; [reflexivity|].
  split; [apply review_payload_score|].
  split; [apply review_payload_status|].
  intros Hlen Hresp Hacc.
  assert (Review.score (review_payload design (clock w 0)) = 85%Z) as Hscore.
  { rewrite review_payload_score, Hlen, Hresp, Hacc. reflexivity. }
  split; [exact Hscore|].
  rewrite review_payload_status, Hscore. reflexivity.
Qed.

(** C9. Whatever the design, the score the reviewer returns lies between 40
    and 85. *)
Theorem review_score_bounds (design : Design.t) (requirements : string) (w : world) :
  exists r,
    (run (ai_agent_2_review_design design requirements) w).1 = inr r /\
    (40 <= Review.score r <= 85)%Z.
Proof.
  exists (review_payload design (clock w 0)).
  rewrite run_ai_agent_2. split; [reflexivity|].
  rewrite review_payload_score. unfold penalty.
  destruct (length (Design.designs design) <? 3)%nat,
    (negb (TechnicalSpecs.responsive (Design.technical_specs design))),
    (negb (str_in "accessibility" _)); lia.
Qed.

(** C8, as amended.  Two calls of the generator, with any requirements and in
    any worlds, return designs that agree on every field but [timestamp],
    which is the clock reading of each call; two calls of the reviewer on the
    same design likewise return reviews that agree on every field but
    [timestamp].  When the clock readings coincide the payloads are equal. *)
Theorem agents_fixed_up_to_timestamp
    (requirements1 requirements2 : string) (design : Design.t) (w1 w2 : world) :
  exists d1 d2 r1 r2,
    (run (ai_agent_1_generate_design requirements1) w1).1 = inr d1 /\
    (run (ai_agent_1_generate_design requirements2) w2).1 = inr d2 /\
    (run (ai_agent_2_review_design design requirements1) w1).1 = inr r1 /\
    (run (ai_agent_2_review_design design requirements2) w2).1 = inr r2 /\
    Design.timestamp d1 = clock w1 0 /\ Design.timestamp d2 = clock w2 0 /\
    Design.designs d1 = Design.designs d2 /\
    Design.technical_specs d1 = Design.technical_specs d2 /\
    Review.timestamp r1 = clock w1 0 /\ Review.timestamp r2 = clock w2 0 /\
    Review.score r1 = Review.score r2 /\
    Review.status r1 = Review.status r2 /\
    Review.strengths r1 = Review.strengths r2 /\
    Review.issues r1 = Review.issues r2 /\
    Review.suggestions r1 = Review.suggestions r2 /\
    (clock w1 0 = clock w2 0 -> d1 = d2 /\ r1 = r2).
Proof.
  exists (design_payload (clock w1 0)), (design_payload (clock w2 0)),
    (review_payload design (clock w1 0)), (review_payload design (clock w2 0)).
  rewrite !run_ai_agent_1, !run_ai_agent_2. simpl.
  repeat (split; [first [reflexivity
    | rewrite !review_payload_status, !review_payload_score; reflexivity
    | rewrite !review_payload_score; reflexivity
    | unfold review_payload;
      destruct (length (Design.designs design) <? 3)%nat,
        (negb (TechnicalSpecs.responsive (Design.technical_specs design))),
        (negb (str_in "accessibility" _)); reflexivity ]|]).
  intros ->. split; reflexivity.
Qed.

(** ** The request handlers *)

(** C3. With a working store and an unused generated id, [create_project]
    stores and returns a record with the given name and requirements, status
    "pending", and no design, review or human approval; it leaves one
    pipeline task for the new project. *)
Theorem create_project_pending (project : ProjectCreate.t) (w : world) :
  faults w 0 = None -> db w !! ids w 0 = None ->
  exists w',
    run (create_project project) w =
      (inr (ProjectResponse.mk (str_oid (ids w 0)) (ProjectCreate.name project)
              (ProjectCreate.requirements project) "pending" (clock w 0)
              None None None), w') /\
    db w' = <[ids w 0 :=
                Document.mk (ProjectCreate.name project)
                  (ProjectCreate.requirements project) "pending" (clock w 0)
                  None None None None]> (db w) /\
    background_tasks w' =
      background_tasks w ++ [(str_oid (ids w 0), ProjectCreate.requirements project)].
Proof.
  intros Hfault Hfresh. unfold create_project. simpl.
  rewrite Hfault, Hfresh. simpl.
  eexists. split; [reflexivity|]. split; reflexivity.
Qed.

(** C2. On an existing project, [approve_project] raises an HTTP 400 and
    leaves the store as it was unless the status is "pending_approval"; from
    "pending_approval", with a working store, it returns normally, records
    the human approval and sets the status to "approved" or "rejected" after
    the request's [approved] flag. *)
Theorem approve_project_gate
    (project_id : string) (approval : ApprovalRequest.t) (w : world) o d :
  ObjectId project_id = inr o -> db w !! o = Some d ->
  (Document.status d <> "pending_approval" ->
   exists detail w',
     run (approve_project project_id approval) w
       = (inl (HTTPException 400 detail), w') /\
     db w' = db w) /\
  (Document.status d = "pending_approval" ->
   faults w 0 = None -> faults w 1 = None ->
   let new_status :=
     if ApprovalRequest.approved approval then "approved" else "rejected" in
   exists w',
     run (approve_project project_id approval) w
       = (inr (Reply ("Project " +:+ new_status) project_id), w') /\
     db w' =
       <[o := Document.mk (Document.name d) (Document.requirements d) new_status
                (Document.created_at d) (Document.design d) (Document.review d)
                (Some (HumanApproval.mk (ApprovalRequest.approved approval)
                         (default "" (ApprovalRequest.feedback approval))
                         (clock w 0) "Human Reviewer"))
                (Document.error_message d)]> (db w)).
Proof.
  intros Hid Hd. split.
  - intros Hstatus. unfold approve_project, ObjectId_. rewrite Hid. simpl.
    destruct (faults w 0) as [m|]; simpl; [by eauto|].
    rewrite Hd.
    destruct (String.eqb_spec (Document.status d) "pending_approval") as [E|_];
      [by destruct Hstatus|].
    simpl. by eauto.
  - intros Hstatus Hf0 Hf1 new_status.
    unfold approve_project, ObjectId_. rewrite Hid. simpl.
    rewrite Hf0, Hd. simpl.
    destruct (String.eqb_spec (Document.status d) "pending_approval") as [_|E];
      [|by destruct E].
    simpl. unfold shift. rewrite Hf1. simpl.
    eexists. split; [reflexivity|]. simpl.
    by rewrite (alter_present _ _ _ _ Hd).
Qed.

(** C4. On an existing project in any state, with a working store,
    [regenerate_design] sets the status to "pending" and clears design, review
    and human approval, then leaves one pipeline task for the project. *)
Theorem regenerate_design_resets (project_id : string) (w : world) o d :
  ObjectId project_id = inr o -> db w !! o = Some d ->
  faults w 0 = None -> faults w 1 = None ->
  exists w',
    run (regenerate_design project_id) w
      = (inr (Reply "Design regeneration started" project_id), w') /\
    db w' =
      <[o := Document.mk (Document.name d) (Document.requirements d) "pending"
               (Document.created_at d) None None None (Document.error_message d)]>
        (db w) /\
    background_tasks w' = background_tasks w ++ [(project_id, Document.requirements d)].
Proof.
  intros Hid Hd Hf0 Hf1. unfold regenerate_design, ObjectId_. rewrite Hid. simpl.
  rewrite Hf0, Hd. simpl. unfold shift. rewrite Hf1. simpl.
  eexists. split; [reflexivity|]. simpl.
  by rewrite (alter_present _ _ _ _ Hd).
Qed.

(** C10. For a project id that names no stored project, [get_project]
    raises an HTTP 400: when the id is well formed and the store answers, the
    400 carries the text of the 404 "Project not found" that its own handler
    caught.  [approve_project] raises that 404 unchanged. *)
Theorem get_project_missing_is_400 (project_id : string) (w : world) :
  (forall o, ObjectId project_id = inr o -> db w !! o = None) ->
  (exists detail w',
     run (get_project project_id) w = (inl (HTTPException 400 detail), w') /\
     db w' = db w /\
     (forall o, ObjectId project_id = inr o -> faults w 0 = None ->
        detail = str_exn (HTTPException 404 "Project not found"))) /\
  (forall approval o, ObjectId project_id = inr o -> faults w 0 = None ->
     exists w',
       run (approve_project project_id approval) w
         = (inl (HTTPException 404 "Project not found"), w') /\
       db w' = db w).
Proof.
  intros Habsent. split.
  - unfold get_project, ObjectId_.
    destruct (ObjectId project_id) as [msg|o] eqn:Hid; simpl.
    + eexists _, _. split; [reflexivity|]. split; [reflexivity|]. by intros.
    + destruct (faults w 0) as [m|] eqn:Hf; simpl.
      * eexists _, _. split; [reflexivity|]. split; [reflexivity|]. by intros.
      * rewrite (Habsent o eq_refl). simpl.
        eexists _, _. split; [reflexivity|]. split; [reflexivity|]. by intros.
  - intros approval o Hid Hf. unfold approve_project, ObjectId_.
    rewrite Hid. simpl. rewrite Hf, (Habsent o Hid). simpl. by eauto.
Qed.

(** ** The pipeline *)

Arguments design_payload : simpl never.
Arguments review_payload : simpl never.

(** C1. When the [try] suite of the pipeline completes without an exception
    on an existing project, so does [process_ai_pipeline], and the record
    then carries the review and a status that is "pending_approval" if the
    review's score is at least 80 and "needs_revision" otherwise, hence
    neither "generating" nor "reviewing". *)
Theorem pipeline_final_status (project_id requirements : string) (w w' : world) o d :
  ObjectId project_id = inr o -> db w !! o = Some d ->
  run (pipeline_try project_id requirements) w = (inr tt, w') ->
  run (process_ai_pipeline project_id requirements) w = (inr tt, w') /\
  exists d' r,
    db w' !! o = Some d' /\ Document.review d' = Some r /\
    Document.status d' =
      (if (80 <=? Review.score r)%Z then "pending_approval" else "needs_revision") /\
    Document.status d' <> "generating" /\ Document.status d' <> "reviewing".
Proof.
  intros Hid Hd Hrun. split.
  { unfold process_ai_pipeline. by rewrite run_try_except, Hrun. }
  revert Hrun. unfold pipeline_try, ObjectId_. rewrite Hid. simpl.
  destruct (faults w 0) as [m|]; simpl; [discriminate|].
  unfold shift.
  destruct (faults w 1) as [m|]; simpl; [discriminate|].
  unfold shift.
  destruct (faults w 2) as [m|]; simpl; [discriminate|].
  intros [= <-]. simpl.
  rewrite !lookup_alter_eq, Hd. simpl.
  eexists _, _. split; [reflexivity|]. simpl. split; [reflexivity|].
  split; [reflexivity|]. split; discriminate.
Qed.

(** In a world whose store answers every call, the [try] suite does complete,
    and the generated design always scores 70: the run ends in
    "needs_revision". *)
Lemma pipeline_try_quiet (project_id requirements : string) (w : world) o d :
  ObjectId project_id = inr o -> db w !! o = Some d ->
  faults w 0 = None -> faults w 1 = None -> faults w 2 = None ->
  exists w' d',
    run (pipeline_try project_id requirements) w = (inr tt, w') /\
    db w' !! o = Some d' /\ Document.status d' = "needs_revision" /\
    (Review.score <$> Document.review d') = Some 70%Z.
Proof.
  intros Hid Hd Hf0 Hf1 Hf2. unfold pipeline_try, ObjectId_. rewrite Hid. simpl.
  rewrite Hf0. simpl. unfold shift. rewrite Hf1. simpl. unfold shift. rewrite Hf2.
  simpl. eexists _, _. split; [reflexivity|]. simpl.
  rewrite !lookup_alter_eq, Hd. simpl. split; [reflexivity|]. split; reflexivity.
Qed.

(** C6, as amended.  When the [try] suite raises [e], [process_ai_pipeline]
    catches it and does nothing but run its handler from the world the
    failure left: it prints the error and then makes exactly one store call,
    the update that sets the status to "error" and [error_message] to the
    text of [e]; nothing is retried.
    - When that update succeeds the pipeline returns normally, one driver
      call later; an existing record then differs from the one at the
      failure only in its status and [error_message], and a project that is
      gone is not written.
    - When that update raises, its exception leaves [process_ai_pipeline],
      one driver call later, with the store as the [try] suite left it.
    - When [project_id] is no valid id, the handler's own [ObjectId] raises
      [InvalidId] after the print, no store call is made at all, and that
      exception leaves [process_ai_pipeline]. *)
Theorem pipeline_exception_recorded
    (project_id requirements : string) (w w1 : world) (e : exn) :
  run (pipeline_try project_id requirements) w = (inl e, w1) ->
  run (process_ai_pipeline project_id requirements) w
    = run (pipeline_except project_id e) w1 /\
  (forall o d, ObjectId project_id = inr o -> db w1 !! o = Some d ->
     faults w1 0 = None ->
     exists w2,
       run (process_ai_pipeline project_id requirements) w = (inr tt, w2) /\
       db w2 =
         <[o := Document.mk (Document.name d) (Document.requirements d) "error"
                  (Document.created_at d) (Document.design d) (Document.review d)
                  (Document.human_approval d) (Some (str_exn e))]> (db w1) /\
       stdout w2 = stdout w1 ++ ["Error in AI pipeline: " +:+ str_exn e]) /\
  (forall o, ObjectId project_id = inr o -> faults w1 0 = None ->
     run (process_ai_pipeline project_id requirements) w
       = (inr tt,
          World (alter (apply_sets [SetStatus "error"; SetErrorMessage (str_exn e)])
                   o (db w1))
                (background_tasks w1)
                (stdout w1 ++ ["Error in AI pipeline: " +:+ str_exn e])
                (shift (faults w1)) (clock w1) (ids w1)) /\
     (db w1 !! o = None ->
      alter (apply_sets [SetStatus "error"; SetErrorMessage (str_exn e)]) o (db w1)
        = db w1)) /\
  (forall o m, ObjectId project_id = inr o -> faults w1 0 = Some m ->
     run (process_ai_pipeline project_id requirements) w
       = (inl (PyMongoError m),
          World (db w1) (background_tasks w1)
                (stdout w1 ++ ["Error in AI pipeline: " +:+ str_exn e])
                (shift (faults w1)) (clock w1) (ids w1))) /\
  (forall msg, ObjectId project_id = inl msg ->
     run (process_ai_pipeline project_id requirements) w
       = (inl (InvalidId msg),
          World (db w1) (background_tasks w1)
                (stdout w1 ++ ["Error in AI pipeline: " +:+ str_exn e])
                (faults w1) (clock w1) (ids w1))).
Proof.
  intros Hrun.
  assert (run (process_ai_pipeline project_id requirements) w
          = run (pipeline_except project_id e) w1) as Hcatch.
  { unfold process_ai_pipeline. by rewrite run_try_except, Hrun. }
  split; [exact Hcatch|]. rewrite Hcatch. clear Hcatch Hrun.
  unfold pipeline_except, ObjectId_.
  split; [|split; [|split]].
  - intros o d Hid Hd Hf. rewrite Hid. simpl. rewrite Hf. simpl.
    eexists. split; [reflexivity|]. simpl.
    by rewrite (alter_present _ _ _ _ Hd).
  - intros o Hid Hf. rewrite Hid. simpl. rewrite Hf. simpl.
    split; [reflexivity|]. intros Habsent.
    apply map_eq. intros o'. rewrite lookup_alter.
    case_decide as Ho; [|done]. subst o'. by rewrite Habsent.
  - intros o m Hid Hf. rewrite Hid. simpl. rewrite Hf. reflexivity.
  - intros msg Hid. rewrite Hid. reflexivity.
Qed.

(** ** The stage invariant of the running server *)

Lemma safe_sleep (seconds : Z) (k : exn + unit -> coro unit) o d :
  Document.status d <> "pending_approval" -> staged d ->
  safe (k (inr tt)) o d -> safe (Vis (Sleep seconds) k) o d.
Proof.
  intros Hpa Hst Hk. split; [exact Hpa|]. intros w Hw. simpl.
  split; [done|]. split; [done|]. by exists d.
Qed.

Lemma safe_utcnow (k : exn + datetime -> coro unit) o d :
  Document.status d <> "pending_approval" -> staged d ->
  (forall now, safe (k (inr now)) o d) -> safe (Vis UtcNow k) o d.
Proof.
  intros Hpa Hst Hk. split; [exact Hpa|]. intros w Hw. simpl.
  split; [done|]. split; [done|]. by exists d.
Qed.

Lemma safe_print (line : string) (k : exn + unit -> coro unit) o d :
  Document.status d <> "pending_approval" -> staged d ->
  safe (k (inr tt)) o d -> safe (Vis (Print line) k) o d.
Proof.
  intros Hpa Hst Hk. split; [exact Hpa|]. intros w Hw. simpl.
  split; [done|]. split; [done|]. by exists d.
Qed.

Lemma safe_update_one (sets : list field_set) (k : exn + unit -> coro unit) o d :
  Document.status d <> "pending_approval" -> staged d ->
  (forall m, safe (k (inl (PyMongoError m))) o d) ->
  staged (apply_sets sets d) -> safe (k (inr tt)) o (apply_sets sets d) ->
  safe (Vis (UpdateOne o sets) k) o d.
Proof.
  intros Hpa Hst Hfail Hst' Hk. split; [exact Hpa|]. intros w Hw. simpl.
  destruct (faults w 0) as [m|]; simpl.
  - split; [done|]. split; [done|]. by exists d.
  - split; [by intros o' Ho'; rewrite lookup_alter_ne|]. split; [done|].
    exists (apply_sets sets d). by rewrite lookup_alter_eq, Hw.
Qed.

Lemma safe_approvable (c : coro unit) o d d' :
  safe c o d -> Document.status d = "pending_approval" -> safe c o d'.
Proof. destruct c; simpl; [done|done|]. by intros [Hpa _] Hs. Qed.

Arguments safe : simpl never.

Ltac staged_blank Hblank :=
  let Hs := fresh in let Hd := fresh in let Hr := fresh in let Hh := fresh in
  destruct Hblank as (Hs & Hd & Hr & Hh);
  unfold staged; simpl; rewrite ?Hs, ?Hd, ?Hr, ?Hh;
  repeat split; first [done | by intros [|] | by intros [|[|]] | by intros ? [=]].

Lemma blank_staged (d : Document.t) : blank d -> staged d.
Proof. intros Hblank. staged_blank Hblank. Qed.

Lemma safe_pipeline_except (project_id : string) (e : exn) o d :
  ObjectId project_id = inr o -> staged d ->
  Document.status d <> "pending_approval" -> Document.human_approval d = None ->
  safe (pipeline_except project_id e) o d.
Proof.
  intros Hid Hst Hpa Hh.
  unfold pipeline_except, ObjectId_, await, mbind, coro_mbind. rewrite Hid. simpl.
  apply safe_print; [done..|].
  apply safe_update_one; [done|done|done| |done].
  unfold staged. simpl. rewrite Hh.
  repeat split; first [by intros [|] | by intros [|[|]] | by intros ? [=]].
Qed.

Lemma safe_process_ai_pipeline (project_id requirements : string) o d :
  ObjectId project_id = inr o -> blank d ->
  safe (process_ai_pipeline project_id requirements) o d.
Proof.
  intros Hid Hblank.
  assert (Document.status d = "pending") as Hs by apply Hblank.
  assert (Document.human_approval d = None) as Hh by apply Hblank.
  assert (staged d) as Hst by by apply blank_staged.
  set (d1 := apply_sets [SetStatus "generating"] d).
  assert (staged d1) as Hst1 by (subst d1; staged_blank Hblank).
  unfold process_ai_pipeline, pipeline_try, ai_agent_1_generate_design,
    ai_agent_2_review_design, ObjectId_, await, mbind, coro_mbind, mret, coro_mret.
  rewrite Hid. simpl.
  apply safe_update_one; [by rewrite Hs|done| |done|].
  { intros m. apply safe_pipeline_except; [done|done|by rewrite Hs|done]. }
  apply safe_sleep; [done|done|].
  apply safe_utcnow; [done|done|]. intros now1.
  set (d2 := apply_sets [SetDesign (Some (design_payload now1)); SetStatus "reviewing"] d1).
  assert (staged d2) as Hst2 by (subst d1 d2; staged_blank Hblank).
  apply safe_update_one; [done|done| |done|].
  { intros m. apply safe_pipeline_except; [done|done|done|done]. }
  apply safe_sleep; [done|done|].
  apply safe_utcnow; [done|done|]. intros now2.
  apply safe_update_one; [done|done| | |done].
  { intros m. apply safe_pipeline_except; [done|done|done|done]. }
  subst d1 d2.
  destruct (Review.status _ =? "approved")%string; staged_blank Hblank.
Qed.

(** What serving one request does to the store and to the task list: nothing;
    or one blank record written (under an unused id, or under the id a
    regeneration names) with one task left for it; or one approvable record
    replaced by a staged one. *)
Lemma serve_effect (rq : request) (w : world) :
  background_tasks w = [] ->
  let w' := (run (serve rq) w).2 in
  (db w' = db w /\ background_tasks w' = []) \/
  (exists o d' project_id requirements,
     blank d' /\ db w' = <[o := d']> (db w) /\
     background_tasks w' = [(project_id, requirements)] /\
     ObjectId project_id = inr o /\
     (db w !! o = None \/ rq = ReqRegenerate project_id)) \/
  (exists o d d',
     db w !! o = Some d /\ Document.status d = "pending_approval" /\ staged d' /\
     db w' = <[o := d']> (db w) /\ background_tasks w' = []).
Proof.
  intros Htasks. destruct rq as [project|project_id|project_id approval|project_id].
  - unfold serve, create_project, await, mbind, coro_mbind, mret, coro_mret. simpl.
    destruct (faults w 0) as [m|]; simpl; [by left|].
    destruct (db w !! ids w 0) eqn:Hfresh; simpl; [by left|].
    right. left. eexists _, _, _, _. rewrite Htasks. simpl.
    split; [|split; [reflexivity|split; [reflexivity|split; [apply ObjectId_str|by left]]]].
    by repeat split.
  - unfold serve, get_project, ObjectId_, await, mbind, coro_mbind, mret, coro_mret.
    left. destruct (ObjectId project_id) as [msg|o]; simpl; [done|].
    destruct (faults w 0) as [m|]; simpl; [done|].
    by destruct (db w !! o).
  - unfold serve, approve_project, ObjectId_, await, mbind, coro_mbind, mret, coro_mret.
    destruct (ObjectId project_id) as [msg|o]; simpl; [by left|].
    destruct (faults w 0) as [m|]; simpl; [by left|].
    destruct (db w !! o) as [d|] eqn:Hd; simpl; [|by left].
    destruct (String.eqb_spec (Document.status d) "pending_approval") as [Hs|_];
      simpl; [|by left].
    destruct (shift (faults w) 0) as [m|]; simpl; [by left|].
    right. right. eexists o, d, _.
    split; [done|]. split; [done|].
    rewrite (alter_present _ _ _ _ Hd). split; [|done].
    unfold staged. simpl.
    split; [by destruct (ApprovalRequest.approved approval); intros [|]|].
    split; [by destruct (ApprovalRequest.approved approval); intros [|[|]]|].
    by intros h [= <-].
  - unfold serve, regenerate_design, ObjectId_, await, mbind, coro_mbind, mret, coro_mret.
    destruct (ObjectId project_id) as [msg|o] eqn:Hid; simpl; [by left|].
    destruct (faults w 0) as [m|]; simpl; [by left|].
    destruct (db w !! o) as [d|] eqn:Hd; simpl; [|by left].
    destruct (shift (faults w) 0) as [m|]; simpl; [by left|].
    right. left. eexists o, _, project_id, _. rewrite Htasks. simpl.
    rewrite (alter_present _ _ _ _ Hd).
    split; [|split; [reflexivity|split; [reflexivity|split; [done|by right]]]].
    by repeat split.
Qed.

Lemma target_distinct {A B} (f : A -> B) (l1 l2 : list A) (x p : A) :
  NoDup (f <$> l1 ++ x :: l2) -> p ∈ l1 ++ l2 -> f p <> f x.
Proof.
  rewrite fmap_app, fmap_cons, NoDup_app, NoDup_cons.
  intros (_ & Hdisj & Hx & _) [Hp|Hp]%elem_of_app E.
  - apply (Hdisj (f p)); [by apply list_elem_of_fmap_2|]. rewrite E. by left.
  - apply Hx. rewrite <- E. by apply list_elem_of_fmap_2.
Qed.

Lemma NoDup_without {A B} (f : A -> B) (l1 l2 : list A) (x : A) :
  NoDup (f <$> l1 ++ x :: l2) -> NoDup (f <$> l1 ++ l2).
Proof.
  rewrite !fmap_app, fmap_cons, !NoDup_app, NoDup_cons.
  intros (H1 & Hdisj & _ & H2). split; [done|]. split; [|done].
  intros y Hy Hy2. apply (Hdisj y Hy). by right.
Qed.

Lemma invariant_init : invariant (System ∅ []).
Proof.
  split; [|split]; simpl.
  - intros o d. by rewrite lookup_empty.
  - intros p Hp. by apply elem_of_nil in Hp.
  - constructor.
Qed.

Lemma invariant_step (s s' : system) : invariant s -> step s s' -> invariant s'.
Proof.
  intros (Hdocs & Hprocs & Hdup) Hstep.
  destruct Hstep as [s rq w Hdb Htasks Hallowed
                    |s l1 l2 project_id X c k w Hsplit Hdb Htasks
                    |s l1 l2 project_id c Hsplit Hfin].
  - pose proof (serve_effect rq w Htasks) as Heff. cbv zeta in Heff.
    destruct Heff as [(Hdb' & Hbt)
      |[(o & d' & pid & req & Hblank & Hdb' & Hbt & Hid & Hwhy)
       |(o & d & d' & Hd & Hs & Hst & Hdb' & Hbt)]];
      rewrite Hdb', Hbt, Hdb; simpl.
    + rewrite app_nil_r. by split; [|split].
    + assert (forall p, p ∈ procs s -> ObjectId p.1 <> inr o) as Hother.
      { intros p Hp E. destruct Hwhy as [Hnew| ->].
        - destruct (Hprocs p Hp) as (o' & d & Ho' & Hd & _).
          rewrite E in Ho'. injection Ho' as <-.
          rewrite <- Hdb in Hd. by rewrite Hd in Hnew.
        - apply (Hallowed p Hp). by rewrite E, Hid. }
      split; [|split]; simpl.
      * intros o' d. rewrite lookup_insert. case_decide as Ho.
        -- intros [= <-]. by apply blank_staged.
        -- apply Hdocs.
      * intros p [Hp|Hp%list_elem_of_singleton]%elem_of_app.
        -- destruct (Hprocs p Hp) as (o' & d & Ho' & Hd & Hsafe).
           exists o', d. split; [done|]. split; [|done].
           rewrite lookup_insert_ne; [done|].
           intros ->. by apply (Hother p Hp).
        -- subst p. exists o, d'. simpl. split; [done|].
           split; [by rewrite lookup_insert_eq|].
           by apply safe_process_ai_pipeline.
      * rewrite fmap_app, NoDup_app. split; [done|]. split; [|apply NoDup_singleton].
        intros x (p & -> & Hp)%list_elem_of_fmap Hx. simpl in Hx.
        apply list_elem_of_singleton in Hx. rewrite Hid in Hx. by apply (Hother p Hp).
    + rewrite app_nil_r. split; [|split]; simpl; [| |done].
      * intros o' d0. rewrite lookup_insert. case_decide as Ho.
        -- by intros [= <-].
        -- apply Hdocs.
      * intros p Hp. destruct (Hprocs p Hp) as (o' & d0 & Ho' & Hd0 & Hsafe).
        rewrite <- Hdb in Hd0. destruct (decide (o' = o)) as [->|Hne].
        -- exists o, d'. split; [done|]. split; [by rewrite lookup_insert_eq|].
           rewrite Hd in Hd0. injection Hd0 as <-. by apply (safe_approvable _ _ d).
        -- exists o', d0. split; [done|]. split; [|done].
           rewrite lookup_insert_ne by done. by rewrite <- Hdb.
  - assert ((project_id, Vis c k) ∈ procs s) as Hin.
    { rewrite Hsplit. apply elem_of_app. right. by left. }
    destruct (Hprocs _ Hin) as (o & d & Hid & Hd & Hsafe). simpl in Hid, Hsafe.
    destruct Hsafe as (_ & Hsafe). rewrite <- Hdb in Hd.
    destruct (Hsafe w Hd) as (Hframe & Hbt & d' & Hd' & Hst' & Hk).
    rewrite Hbt, Htasks. simpl. rewrite app_nil_r.
    assert (forall p, p ∈ l1 ++ l2 -> ObjectId p.1 <> inr o) as Hother.
    { intros p Hp. rewrite <- Hid.
      apply (target_distinct (fun p => ObjectId p.1) l1 l2 (project_id, Vis c k)); [|done].
      by rewrite <- Hsplit. }
    split; [|split]; simpl.
    + intros o' d0 Hd0. destruct (decide (o' = o)) as [->|Hne].
      * rewrite Hd' in Hd0. by injection Hd0 as <-.
      * rewrite (Hframe o' Hne), Hdb in Hd0. by apply (Hdocs o').
    + intros p Hp.
      assert (p = (project_id, k (perform c w).1) \/ p ∈ l1 ++ l2) as [->|Hp'].
      { apply elem_of_app in Hp as [Hp|Hp]; [right; apply elem_of_app; by left|].
        apply elem_of_cons in Hp as [->|Hp]; [by left|].
        right. apply elem_of_app. by right. }
      * by exists o, d'.
      * assert (p ∈ procs s) as Hps.
        { rewrite Hsplit. apply elem_of_app. apply elem_of_app in Hp' as [?|?];
            [by left|right; by right]. }
        destruct (Hprocs p Hps) as (o' & d0 & Ho' & Hd0 & Hsafe0).
        exists o', d0. split; [done|]. split; [|done].
        rewrite Hframe, Hdb; [done|]. intros ->. by apply (Hother p Hp').
    + rewrite Hsplit in Hdup. by rewrite fmap_app, fmap_cons in *.
  - split; [|split]; simpl.
    + done.
    + intros p Hp. apply Hprocs. rewrite Hsplit.
      apply elem_of_app. apply elem_of_app in Hp as [?|?]; [by left|right; by right].
    + rewrite Hsplit in Hdup. by apply NoDup_without in Hdup.
Qed.

Lemma reachable_invariant (s : system) : reachable s -> invariant s.
Proof.
  induction 1 as [|s s' _ IH Hstep]; [apply invariant_init|].
  by apply (invariant_step s).
Qed.

(** C7. In every state the server can reach by serving create, get, approve
    and regenerate requests and by resuming pipeline runs call by call, with
    at most one pipeline run per project in flight, every stored record has
    no design while its status is "pending" or "generating", no review while
    its status is "pending", "generating" or "reviewing", and a human
    approval only together with the status that approval decided. *)
Theorem payloads_wait_for_their_stage (s : system) :
  reachable s ->
  forall o d, sdb s !! o = Some d ->
    (Document.status d = "pending" \/ Document.status d = "generating" ->
     Document.design d = None) /\
    (Document.status d = "pending" \/ Document.status d = "generating" \/
     Document.status d = "reviewing" -> Document.review d = None) /\
    (forall h, Document.human_approval d = Some h ->
       Document.status d = if HumanApproval.approved h then "approved" else "rejected").
Proof.
  intros Hreach o d Hd.
  destruct (reachable_invariant s Hreach) as (Hdocs & _).
  exact (Hdocs o d Hd).
Qed.

Lemma serve_step_step (s : system) (rq : request) (w : world) :
  db w = sdb s -> background_tasks w = [] -> allowed s rq ->
  step s (serve_step s rq w).
Proof. apply step_request. Qed.

Lemma resume_head_step (s : system) (w : world) :
  match procs s with
  | (_, Vis _ _) :: _ => True
  | _ => False
  end ->
  db w = sdb s -> background_tasks w = [] -> step s (resume_head s w).
Proof.
  unfold resume_head. destruct (procs s) as [|[project_id c] rest] eqn:Hprocs; [done|].
  destruct c as [| |X c k]; [done|done|]. intros _ Hdb Htasks.
  by apply (step_resume s [] rest project_id X c k w).
Qed.

(** ** Deleting a project *)

(** X1. With a working store, [delete_project] on a stored project returns
    its message and removes that record and no other. *)
Theorem delete_project_removes (project_id : string) (w : world) o d :
  ObjectId project_id = inr o -> db w !! o = Some d -> faults w 0 = None ->
  exists w',
    delete_project project_id w
      = (inr (Reply "Project deleted successfully" project_id), w') /\
    db w' = delete o (db w) /\
    db w' !! o = None /\
    (forall o', o' <> o -> db w' !! o' = db w !! o') /\
    background_tasks w' = background_tasks w.
Proof.
  intros Hid Hd Hf.
  unfold delete_project, action_try, action_bind, delete_one, ObjectId_.
  rewrite Hid. simpl. rewrite Hf, Hd. simpl.
  eexists. split; [reflexivity|]. simpl. split; [reflexivity|].
  split; [apply lookup_delete_eq|]. split; [|reflexivity].
  intros o' Ho'. by rewrite lookup_delete_ne.
Qed.

(** X2. For a project id that names no stored project, [delete_project]
    raises an HTTP 400 and leaves the store as it was; when the id is well
    formed and the store answers, the 400 carries the text of the 404 that
    its own handler caught. *)
Theorem delete_project_missing_is_400 (project_id : string) (w : world) :
  (forall o, ObjectId project_id = inr o -> db w !! o = None) ->
  exists detail w',
    delete_project project_id w = (inl (HTTPException 400 detail), w') /\
    db w' = db w /\
    (forall o, ObjectId project_id = inr o -> faults w 0 = None ->
       detail = str_exn (HTTPException 404 "Project not found")).
Proof.
  intros Habsent.
  unfold delete_project, action_try, action_bind, delete_one, ObjectId_.
  destruct (ObjectId project_id) as [msg|o] eqn:Hid; simpl.
  - eexists _, _. split; [reflexivity|]. split; [reflexivity|]. by intros.
  - destruct (faults w 0) as [m|] eqn:Hf; simpl.
    + eexists _, _. split; [reflexivity|]. split; [reflexivity|]. by intros.
    + rewrite (Habsent o eq_refl). simpl.
      eexists _, _. split; [reflexivity|]. split; [reflexivity|]. by intros.
Qed.

(** X3. For a project id that names no stored project, [regenerate_design]
    raises an HTTP 400 (the 404 it raises is caught by its own handler),
    changes no record and queues no pipeline task. *)
Theorem regenerate_design_missing_is_400 (project_id : string) (w : world) :
  (forall o, ObjectId project_id = inr o -> db w !! o = None) ->
  exists detail w',
    run (regenerate_design project_id) w = (inl (HTTPException 400 detail), w') /\
    db w' = db w /\ background_tasks w' = background_tasks w /\
    (forall o, ObjectId project_id = inr o -> faults w 0 = None ->
       detail = str_exn (HTTPException 404 "Project not found")).
Proof.
  intros Habsent. unfold regenerate_design, ObjectId_.
  destruct (ObjectId project_id) as [msg|o] eqn:Hid; simpl.
  - eexists _, _. do 3 (split; [reflexivity|]). by intros.
  - destruct (faults w 0) as [m|] eqn:Hf; simpl.
    + eexists _, _. do 3 (split; [reflexivity|]). by intros.
    + rewrite (Habsent o eq_refl). simpl.
      eexists _, _. do 3 (split; [reflexivity|]). by intros.
Qed.

(** ** Failing requests *)

(** X4. A request that ends in an exception has changed no record and queued
    no task: this holds for the create, get, approve and regenerate routes
    and for [delete_project], whatever the store driver does. *)
Theorem failed_request_changes_nothing (rq : request) (project_id : string) (w : world) :
  (forall e w', run (serve rq) w = (inl e, w') ->
     db w' = db w /\ background_tasks w' = background_tasks w) /\
  (forall e w', delete_project project_id w = (inl e, w') ->
     db w' = db w /\ background_tasks w' = background_tasks w).
Proof.
  split.
  - intros e w'. destruct rq as [project|pid|pid approval|pid].
    + unfold serve, create_project, await, mbind, coro_mbind, mret, coro_mret. simpl.
      destruct (faults w 0) as [m|]; simpl; [by intros [= _ <-]|].
      destruct (db w !! ids w 0); simpl; [by intros [= _ <-]|discriminate].
    + unfold serve, get_project, ObjectId_, await, mbind, coro_mbind, mret, coro_mret.
      destruct (ObjectId pid) as [msg|o]; simpl; [by intros [= _ <-]|].
      destruct (faults w 0) as [m|]; simpl; [by intros [= _ <-]|].
      destruct (db w !! o); simpl; [discriminate|by intros [= _ <-]].
    + unfold serve, approve_project, ObjectId_, await, mbind, coro_mbind, mret, coro_mret.
      destruct (ObjectId pid) as [msg|o]; simpl; [by intros [= _ <-]|].
      destruct (faults w 0) as [m|]; simpl; [by intros [= _ <-]|].
      destruct (db w !! o) as [d|]; simpl; [|by intros [= _ <-]].
      destruct (negb _); simpl; [by intros [= _ <-]|].
      destruct (shift (faults w) 0) as [m|]; simpl; [by intros [= _ <-]|discriminate].
    + unfold serve, regenerate_design, ObjectId_, await, mbind, coro_mbind, mret, coro_mret.
      destruct (ObjectId pid) as [msg|o]; simpl; [by intros [= _ <-]|].
      destruct (faults w 0) as [m|]; simpl; [by intros [= _ <-]|].
      destruct (db w !! o) as [d|]; simpl; [|by intros [= _ <-]].
      destruct (shift (faults w) 0) as [m|]; simpl; [by intros [= _ <-]|discriminate].
  - intros e w'.
    unfold delete_project, action_try, action_bind, delete_one, ObjectId_.
    destruct (ObjectId project_id) as [msg|o]; simpl; [by intros [= _ <-]|].
    destruct (faults w 0) as [m|]; simpl; [by intros [= _ <-]|].
    destruct (db w !! o); simpl; [discriminate|by intros [= _ <-]].
Qed.

(** X5. The routes that wrap their body in [try] only ever fail with an
    [HTTPException]: status 400 for [get_project], [regenerate_design] and
    [delete_project], status 400 or 404 for [approve_project].  No driver
    exception and no [InvalidId] leaves them. *)
Theorem guarded_routes_raise_client_errors
    (project_id : string) (approval : ApprovalRequest.t) (w : world) :
  (forall e w', run (get_project project_id) w = (inl e, w') ->
     exists detail, e = HTTPException 400 detail) /\
  (forall e w', run (regenerate_design project_id) w = (inl e, w') ->
     exists detail, e = HTTPException 400 detail) /\
  (forall e w', delete_project project_id w = (inl e, w') ->
     exists detail, e = HTTPException 400 detail) /\
  (forall e w', run (approve_project project_id approval) w = (inl e, w') ->
     exists detail, e = HTTPException 400 detail \/ e = HTTPException 404 detail).
Proof.
  split; [|split; [|split]]; intros e w'.
  - unfold get_project, ObjectId_.
    destruct (ObjectId project_id) as [msg|o]; simpl; [intros [= <- _]; by eauto|].
    destruct (faults w 0) as [m|]; simpl; [intros [= <- _]; by eauto|].
    destruct (db w !! o); simpl; [discriminate|intros [= <- _]; by eauto].
  - unfold regenerate_design, ObjectId_.
    destruct (ObjectId project_id) as [msg|o]; simpl; [intros [= <- _]; by eauto|].
    destruct (faults w 0) as [m|]; simpl; [intros [= <- _]; by eauto|].
    destruct (db w !! o) as [d|]; simpl; [|intros [= <- _]; by eauto].
    destruct (shift (faults w) 0) as [m|]; simpl; [intros [= <- _]; by eauto|discriminate].
  - unfold delete_project, action_try, action_bind, delete_one, ObjectId_.
    destruct (ObjectId project_id) as [msg|o]; simpl; [intros [= <- _]; by eauto|].
    destruct (faults w 0) as [m|]; simpl; [intros [= <- _]; by eauto|].
    destruct (db w !! o); simpl; [discriminate|intros [= <- _]; by eauto].
  - unfold approve_project, ObjectId_.
    destruct (ObjectId project_id) as [msg|o]; simpl; [intros [= <- _]; by eauto|].
    destruct (faults w 0) as [m|]; simpl; [intros [= <- _]; by eauto|].
    destruct (db w !! o) as [d|]; simpl; [|intros [= <- _]; by eauto].
    destruct (negb _); simpl; [intros [= <- _]; by eauto|].
    destruct (shift (faults w) 0) as [m|]; simpl; [intros [= <- _]; by eauto|discriminate].
Qed.

(** ** Composing the routes *)


(** X7. With a working store and an unused generated id, deleting the
    project that [create_project] returned restores the store; the pipeline
    task that the creation queued then runs without writing anything, so the
    deleted record does not come back. *)
Theorem create_then_delete (project : ProjectCreate.t) (w : world) :
  faults w 0 = None -> faults w 1 = None -> db w !! ids w 0 = None ->
  exists resp w1 r w2,
    run (create_project project) w = (inr resp, w1) /\
    delete_project (ProjectResponse.id resp) w1 = (inr r, w2) /\
    db w2 = db w /\
    background_tasks w2
      = background_tasks w
          ++ [(ProjectResponse.id resp, ProjectCreate.requirements project)] /\
    forall w3, db w3 = db w2 ->
      db (run (process_ai_pipeline (ProjectResponse.id resp)
                 (ProjectCreate.requirements project)) w3).2 = db w.
Proof.
  intros Hf0 Hf1 Hfresh. unfold create_project. simpl.
  rewrite Hf0, Hfresh. simpl.
  eexists _, _, _, _. split; [reflexivity|]. simpl.
  unfold delete_project, action_try, action_bind, delete_one, ObjectId_.
  rewrite ObjectId_str. simpl. unfold shift. rewrite Hf1. simpl.
  rewrite lookup_insert_eq. simpl.
  split; [reflexivity|]. simpl.
  assert (delete (ids w 0)
            (<[ids w 0 := Document.mk (ProjectCreate.name project)
                            (ProjectCreate.requirements project) "pending"
                            (clock w 0) None None None None]> (db w)) = db w) as Hback.
  { rewrite delete_insert_eq. by apply delete_id. }
  split; [exact Hback|]. split; [reflexivity|].
  intros w3 Hw3. rewrite Hback in Hw3.
  assert (forall f, alter f (ids w 0) (db w) = db w) as Hskip.
  { intros f. apply map_eq. intros o. rewrite lookup_alter.
    case_decide as Ho; [|done]. subst o. by rewrite Hfresh. }
  unfold process_ai_pipeline, pipeline_try, pipeline_except, ObjectId_.
  rewrite ObjectId_str. simpl.
  destruct (faults w3 0) as [m|]; simpl.
  { unfold shift. destruct (faults w3 1) as [m'|]; simpl; [done|].
    by rewrite Hw3, Hskip. }
  unfold shift. destruct (faults w3 1) as [m|]; simpl.
  { unfold shift. destruct (faults w3 2) as [m'|]; simpl;
      rewrite Hw3, ?Hskip; done. }
  unfold shift. destruct (faults w3 2) as [m|]; simpl.
  { unfold shift. destruct (faults w3 3) as [m'|]; simpl;
      rewrite Hw3, ?Hskip; done. }
  by rewrite Hw3, !Hskip.
Qed.

(** ** What a pipeline run can touch *)

Ltac pipeline_frame o :=
  simpl; split; [by rewrite ?dom_alter_L|]; split; [done|];
  let o' := fresh "o'" in let d := fresh "d" in let Hd := fresh "Hd" in
  intros o' d Hd;
  destruct (decide (o = o')) as [<-|Hne];
  [ rewrite ?lookup_alter_eq, Hd; simpl; eexists; split; [reflexivity|];
    by repeat split
  | rewrite ?lookup_alter_ne by done; exists d; by repeat split ].

(** X8. Whatever the store driver does and whether or not it ends in an
    exception, a pipeline run adds no record, removes none and queues no
    task; it never changes the name, requirements, creation time or human
    approval of a record, and changes nothing at all in a record other than
    the one its project id names. *)
Theorem pipeline_touches_only_its_record (project_id requirements : string) (w : world) :
  dom (db (run (process_ai_pipeline project_id requirements) w).2) = dom (db w) /\
  background_tasks (run (process_ai_pipeline project_id requirements) w).2
    = background_tasks w /\
  forall o' d, db w !! o' = Some d ->
    exists d',
      db (run (process_ai_pipeline project_id requirements) w).2 !! o' = Some d' /\
      Document.name d' = Document.name d /\
      Document.requirements d' = Document.requirements d /\
      Document.created_at d' = Document.created_at d /\
      Document.human_approval d' = Document.human_approval d /\
      (ObjectId project_id <> inr o' -> d' = d).
Proof.
  unfold process_ai_pipeline, pipeline_try, pipeline_except, ObjectId_.
  destruct (ObjectId project_id) as [msg|o] eqn:Hid; simpl.
  { split; [done|]. split; [done|]. intros o' d Hd. exists d. by repeat split. }
  destruct (faults w 0) as [m|]; simpl.
  { unfold shift. destruct (faults w 1) as [m'|]; pipeline_frame o. }
  unfold shift. destruct (faults w 1) as [m|]; simpl.
  { unfold shift. destruct (faults w 2) as [m'|]; pipeline_frame o. }
  unfold shift. destruct (faults w 2) as [m|]; simpl.
  { unfold shift. destruct (faults w 3) as [m'|]; pipeline_frame o. }
  pipeline_frame o.
Qed.

(** X9. With a working store, a pipeline run on a stored project returns
    normally and leaves the record with the generated design, its review and
    the status "needs_revision": the generated design fails the reviewer's
    accessibility check, so its score is 70 and its one issue names that
    check.  The run never leaves a record in "pending_approval". *)
Theorem pipeline_ends_in_needs_revision
    (project_id requirements : string) (w : world) o d :
  ObjectId project_id = inr o -> db w !! o = Some d ->
  faults w 0 = None -> faults w 1 = None -> faults w 2 = None ->
  exists w' r,
    run (process_ai_pipeline project_id requirements) w = (inr tt, w') /\
    db w' =
      <[o := Document.mk (Document.name d) (Document.requirements d) "needs_revision"
               (Document.created_at d) (Some (design_payload (clock w 0))) (Some r)
               (Document.human_approval d) (Document.error_message d)]> (db w) /\
    Review.timestamp r = clock w 1 /\ Review.score r = 70%Z /\
    Review.status r = "needs_revision" /\
    Review.issues r = ["Accessibility standards not clearly defined"].
Proof.
  intros Hid Hd Hf0 Hf1 Hf2.
  unfold process_ai_pipeline, pipeline_try, ObjectId_. rewrite Hid. simpl.
  rewrite Hf0. simpl. unfold shift. rewrite Hf1. simpl. unfold shift. rewrite Hf2.
  simpl. eexists _, (review_payload (design_payload (clock w 0)) (clock w 1)).
  split; [reflexivity|]. simpl. split; [|by repeat split].
  apply map_eq. intros o'. destruct (decide (o = o')) as [<-|Hne].
  - by rewrite !lookup_alter_eq, lookup_insert_eq, Hd.
  - by rewrite !lookup_alter_ne, lookup_insert_ne.
Qed.

(** ** The reviewer's issues *)

(** X10. A review is "approved" exactly when it lists no issue, and then its
    score is 85; every failed check adds one issue, so a review with an issue
    is "needs_revision" with a score of at most 75. *)
Theorem review_approved_iff_no_issues
    (design : Design.t) (requirements : string) (w : world) :
  exists r,
    (run (ai_agent_2_review_design design requirements) w).1 = inr r /\
    (Review.status r = "approved" <-> Review.issues r = []) /\
    (Review.issues r = [] -> Review.score r = 85%Z) /\
    (Review.issues r <> [] ->
     Review.status r = "needs_revision" /\ (Review.score r <= 75)%Z) /\
    length (Review.issues r) =
      ((if (length (Design.designs design) <? 3)%nat then 1 else 0)
       + (if TechnicalSpecs.responsive (Design.technical_specs design) then 0 else 1)
       + (if str_in "accessibility"
               (lower (TechnicalSpecs.accessibility (Design.technical_specs design)))
          then 0 else 1))%nat.
Proof.
  exists (review_payload design (clock w 0)).
  rewrite run_ai_agent_2. split; [reflexivity|].
  unfold review_payload.
  destruct (length (Design.designs design) <? 3)%nat,
    (TechnicalSpecs.responsive (Design.technical_specs design)),
    (str_in "accessibility" _); simpl;
    (split; [split; intros; done|]); (split; [intros; done|]);
    (split; [intros Hne; first [by destruct Hne | split; [done|lia]]|]);
    reflexivity.
Qed.

(** ** Approving twice *)

Lemma approve_project_refused
    (project_id : string) (approval : ApprovalRequest.t) (w : world) o d :
  ObjectId project_id = inr o -> db w !! o = Some d ->
  Document.status d <> "pending_approval" ->
  exists detail w',
    run (approve_project project_id approval) w = (inl (HTTPException 400 detail), w') /\
    db w' = db w.
Proof.
  intros Hid Hd Hstatus. unfold approve_project, ObjectId_. rewrite Hid. simpl.
  destruct (faults w 0) as [m|]; simpl; [by eauto|].
  rewrite Hd.
  destruct (String.eqb_spec (Document.status d) "pending_approval") as [E|_];
    [by destruct Hstatus|].
  simpl. by eauto.
Qed.

(** X11. A human decision is final: once [approve_project] has succeeded on
    a project, any further [approve_project] on it, with either flag, raises
    an HTTP 400 and leaves the recorded decision as it is. *)
Theorem approve_project_is_final
    (project_id : string) (first second : ApprovalRequest.t) (w : world) o d :
  ObjectId project_id = inr o -> db w !! o = Some d ->
  Document.status d = "pending_approval" ->
  faults w 0 = None -> faults w 1 = None ->
  exists r w1,
    run (approve_project project_id first) w = (inr r, w1) /\
    forall w1', db w1' = db w1 ->
      exists detail w2,
        run (approve_project project_id second) w1'
          = (inl (HTTPException 400 detail), w2) /\
        db w2 = db w1.
Proof.
  intros Hid Hd Hstatus Hf0 Hf1.
  unfold approve_project at 1. unfold ObjectId_. rewrite Hid. simpl.
  rewrite Hf0, Hd. simpl.
  destruct (String.eqb_spec (Document.status d) "pending_approval") as [_|E];
    [|by destruct E].
  simpl. unfold shift. rewrite Hf1. simpl.
  eexists _, _. split; [reflexivity|]. simpl. intros w1' Hw1'.
  destruct (approve_project_refused project_id second w1' o
              (apply_sets
                 [SetHumanApproval
                    (Some (HumanApproval.mk (ApprovalRequest.approved first)
                             (default "" (ApprovalRequest.feedback first))
                             (clock w 0) "Human Reviewer"));
                  SetStatus (if ApprovalRequest.approved first
                             then "approved" else "rejected")] d) Hid)
    as (detail & w2 & Hrun & Hdb).
  - by rewrite Hw1', lookup_alter_eq, Hd.
  - simpl. by destruct (ApprovalRequest.approved first).
  - exists detail, w2. split; [exact Hrun|]. by rewrite Hdb.
Qed.

(** ** Statistics *)

Lemma count_insert (query : option string) (m : gmap oid Document.t) o d :
  m !! o = None ->
  count query (<[o := d]> m) = ((if matches query d then 1 else 0) + count query m)%nat.
Proof.
  intros Hfresh. unfold count. destruct (matches query d) eqn:Hm.
  - rewrite map_filter_insert_True by (simpl; rewrite Hm; exact I).
    rewrite map_size_insert_None; [done|].
    apply map_lookup_filter_None_2. by left.
  - rewrite map_filter_insert_not'; [done|simpl; rewrite Hm; intros []|].
    intros y Hy. by rewrite Hfresh in Hy.
Qed.

Lemma count_empty (query : option string) : count query (∅ : gmap oid Document.t) = 0%nat.
Proof. unfold count. by rewrite map_filter_empty, map_size_empty. Qed.

Lemma count_all (m : gmap oid Document.t) : count None m = size m.
Proof. unfold count. by rewrite map_filter_id. Qed.

Lemma count_by_status (m : gmap oid Document.t) :
  (count (Some "pending_approval") m + count (Some "approved") m
   + count (Some "rejected") m <= size m)%nat.
Proof.
  induction m as [|o d m Hfresh IH] using map_ind.
  - by rewrite !count_empty, map_size_empty.
  - rewrite !count_insert, map_size_insert_None by done. simpl.
    destruct (String.eqb_spec (Document.status d) "pending_approval") as [->|_];
      simpl; [lia|].
    destruct (String.eqb_spec (Document.status d) "approved") as [->|_];
      simpl; [lia|].
    destruct (Document.status d =? "rejected")%string; lia.
Qed.

Lemma count_none (status : string) (m : gmap oid Document.t) :
  (forall o d, m !! o = Some d -> Document.status d <> status) ->
  count (Some status) m = 0%nat.
Proof.
  intros Hnone. unfold count. apply map_size_empty_iff, map_empty_filter_2.
  intros o d Hd. simpl.
  destruct (String.eqb_spec (Document.status d) status) as [E|_]; [|intros []].
  by destruct (Hnone o d Hd).
Qed.

(** X12. With a working store, [get_statistics] changes nothing and reports
    the number of stored records as the total; the three status counts are
    non-negative and together never exceed that total, and the timestamp is
    the clock reading taken after the counts. *)
Theorem get_statistics_counts (w : world) :
  faults w 0 = None -> faults w 1 = None -> faults w 2 = None -> faults w 3 = None ->
  exists st w',
    get_statistics w = (inr st, w') /\ db w' = db w /\
    total_projects st = Z.of_nat (size (db w)) /\
    pending_approval st = Z.of_nat (count (Some "pending_approval") (db w)) /\
    approved st = Z.of_nat (count (Some "approved") (db w)) /\
    rejected st = Z.of_nat (count (Some "rejected") (db w)) /\
    (0 <= pending_approval st)%Z /\ (0 <= approved st)%Z /\ (0 <= rejected st)%Z /\
    (pending_approval st + approved st + rejected st <= total_projects st)%Z /\
    timestamp st = clock w 0.
Proof.
  intros Hf0 Hf1 Hf2 Hf3.
  unfold get_statistics, action_bind, count_documents, action_ret. simpl.
  rewrite Hf0. simpl. unfold shift. rewrite Hf1. simpl. unfold shift.
  rewrite Hf2. simpl. unfold shift. rewrite Hf3. simpl.
  eexists _, _. split; [reflexivity|]. simpl.
  split; [done|]. split; [by rewrite count_all|].
  do 3 (split; [done|]). do 3 (split; [lia|]). split; [|done].
  rewrite count_all. pose proof (count_by_status (db w)). lia.
Qed.

(** X13. [create_project] and [get_statistics] have no handler of their
    own: when they fail, what leaves them is the driver's exception itself,
    not an [HTTPException], and the store is as it was. *)
Theorem unguarded_routes_leak_driver_errors (project : ProjectCreate.t) (w : world) :
  (forall e w', run (create_project project) w = (inl e, w') ->
     exists m, e = PyMongoError m /\ db w' = db w) /\
  (forall e w', get_statistics w = (inl e, w') ->
     exists m, e = PyMongoError m /\ db w' = db w).
Proof.
  split; intros e w'.
  - unfold create_project. simpl.
    destruct (faults w 0) as [m|]; simpl; [intros [= <- <-]; by eauto|].
    destruct (db w !! ids w 0); simpl; [intros [= <- <-]; by eauto|discriminate].
  - unfold get_statistics, action_bind, count_documents, action_ret. simpl.
    destruct (faults w 0) as [m|]; simpl; [intros [= <- <-]; by eauto|].
    destruct (shift (faults w) 0) as [m|]; simpl; [intros [= <- <-]; by eauto|].
    destruct (shift (shift (faults w)) 0) as [m|]; simpl;
      [intros [= <- <-]; by eauto|].
    destruct (shift (shift (shift (faults w))) 0) as [m|]; simpl;
      [intros [= <- <-]; by eauto|discriminate].
Qed.

(** ** No record ever becomes approvable *)

Lemma generated_review_status (now1 now2 : datetime) :
  Review.status (review_payload (design_payload now1) now2) = "needs_revision".
Proof. reflexivity. Qed.

Lemma keeps_sleep P (seconds : Z) (k : exn + unit -> coro unit) o d :
  P d -> keeps P (k (inr tt)) o d -> keeps P (Vis (Sleep seconds) k) o d.
Proof.
  intros HP Hk w Hw d'. simpl. rewrite Hw. by intros [= <-].
Qed.

Lemma keeps_utcnow P (k : exn + datetime -> coro unit) o d :
  P d -> (forall now, keeps P (k (inr now)) o d) -> keeps P (Vis UtcNow k) o d.
Proof.
  intros HP Hk w Hw d'. simpl. rewrite Hw. by intros [= <-].
Qed.

Lemma keeps_print P (line : string) (k : exn + unit -> coro unit) o d :
  P d -> keeps P (k (inr tt)) o d -> keeps P (Vis (Print line) k) o d.
Proof.
  intros HP Hk w Hw d'. simpl. rewrite Hw. by intros [= <-].
Qed.

Lemma keeps_update_one P (sets : list field_set) (k : exn + unit -> coro unit) o d :
  P d -> (forall m, keeps P (k (inl (PyMongoError m))) o d) ->
  P (apply_sets sets d) -> keeps P (k (inr tt)) o (apply_sets sets d) ->
  keeps P (Vis (UpdateOne o sets) k) o d.
Proof.
  intros HP Hfail HP' Hk w Hw d'. simpl.
  destruct (faults w 0) as [m|]; simpl.
  - rewrite Hw. by intros [= <-].
  - rewrite lookup_alter_eq, Hw. simpl. by intros [= <-].
Qed.

Arguments keeps : simpl never.

Lemma keeps_pipeline_except (project_id : string) (e : exn) o d :
  ObjectId project_id = inr o -> unapproved d ->
  keeps unapproved (pipeline_except project_id e) o d.
Proof.
  intros Hid Hun.
  unfold pipeline_except, ObjectId_, await, mbind, coro_mbind. rewrite Hid. simpl.
  apply keeps_print; [done|].
  apply keeps_update_one; [done|done| |done].
  destruct Hun as [Hh _]. split; [exact Hh|]. simpl. by eauto 6.
Qed.

Lemma keeps_process_ai_pipeline (project_id requirements : string) o d :
  ObjectId project_id = inr o -> blank d ->
  keeps unapproved (process_ai_pipeline project_id requirements) o d.
Proof.
  intros Hid (Hs & _ & _ & Hh).
  assert (forall sets status,
            Document.human_approval (apply_sets sets d) = None ->
            Document.status (apply_sets sets d) = status ->
            status = "pending" \/ status = "generating" \/ status = "reviewing" \/
            status = "needs_revision" \/ status = "error" ->
            unapproved (apply_sets sets d)) as Hun.
  { intros sets status Hh' Hs' Hin. split; [exact Hh'|]. by rewrite Hs'. }
  assert (unapproved d) as Hd by (apply (Hun [] "pending"); by eauto).
  unfold process_ai_pipeline, pipeline_try, ai_agent_1_generate_design,
    ai_agent_2_review_design, ObjectId_, await, mbind, coro_mbind, mret, coro_mret.
  rewrite Hid. simpl.
  assert (unapproved (apply_sets [SetStatus "generating"] d)) as Hd1
    by (apply (Hun _ "generating"); by eauto).
  apply keeps_update_one; [done| |done|].
  { intros m. by apply keeps_pipeline_except. }
  apply keeps_sleep; [done|]. apply keeps_utcnow; [done|]. intros now1.
  assert (unapproved (apply_sets [SetStatus "generating";
                                  SetDesign (Some (design_payload now1));
                                  SetStatus "reviewing"] d)) as Hd2
    by (apply (Hun _ "reviewing"); by eauto).
  apply keeps_update_one; [done| |done|].
  { intros m. by apply keeps_pipeline_except. }
  apply keeps_sleep; [done|]. apply keeps_utcnow; [done|]. intros now2.
  simpl. rewrite ?generated_review_status. simpl.
  apply keeps_update_one; [done| | |done].
  { intros m. by apply keeps_pipeline_except. }
  apply (Hun [SetStatus "generating"; SetDesign (Some (design_payload now1));
              SetStatus "reviewing";
              SetReview (Some (review_payload (design_payload now1) now2));
              SetStatus "needs_revision"] "needs_revision"); by eauto 6.
Qed.

Lemma never_approvable_step (s s' : system) :
  invariant s -> never_approvable s -> step s s' -> never_approvable s'.
Proof.
  intros (_ & Hprocs & Hdup) (Hdocs & Hkeeps) Hstep.
  destruct Hstep as [s rq w Hdb Htasks Hallowed
                    |s l1 l2 project_id X c k w Hsplit Hdb Htasks
                    |s l1 l2 project_id c Hsplit Hfin].
  - pose proof (serve_effect rq w Htasks) as Heff. cbv zeta in Heff.
    destruct Heff as [(Hdb' & Hbt)
      |[(o & d' & pid & req & Hblank & Hdb' & Hbt & Hid & Hwhy)
       |(o & d & d' & Hd & Hs & Hst & Hdb' & Hbt)]];
      rewrite Hdb', Hbt, ?Hdb; simpl.
    + rewrite app_nil_r. by split.
    + assert (forall p, p ∈ procs s -> ObjectId p.1 <> inr o) as Hother.
      { intros p Hp E. destruct Hwhy as [Hnew| ->].
        - destruct (Hprocs p Hp) as (o' & d & Ho' & Hd & _).
          rewrite E in Ho'. injection Ho' as <-.
          rewrite <- Hdb in Hd. by rewrite Hd in Hnew.
        - apply (Hallowed p Hp). by rewrite E, Hid. }
      split; simpl.
      * intros o' d. rewrite lookup_insert. case_decide as Ho; [|apply Hdocs].
        intros [= <-]. destruct Hblank as (Hs & _ & _ & Hh).
        split; [done|]. by left.
      * intros p [Hp|Hp%list_elem_of_singleton]%elem_of_app o' d Ho'.
        -- rewrite lookup_insert_ne; [by apply Hkeeps|].
           intros ->. by apply (Hother p Hp).
        -- subst p. simpl in *. rewrite Hid in Ho'. injection Ho' as <-.
           rewrite lookup_insert_eq. intros [= <-].
           by apply keeps_process_ai_pipeline.
    + rewrite <- Hdb in Hdocs. destruct (Hdocs o d Hd) as (_ & Hin).
      rewrite Hs in Hin. by destruct Hin as [|[|[|[|]]]].
  - assert ((project_id, Vis c k) ∈ procs s) as Hin.
    { rewrite Hsplit. apply elem_of_app. right. by left. }
    destruct (Hprocs _ Hin) as (o & d & Hid & Hd & Hsafe). simpl in Hid.
    pose proof (Hkeeps _ Hin o d Hid Hd) as Hk.
    unfold safe in Hsafe; fold safe in Hsafe. unfold keeps in Hk; fold keeps in Hk.
    simpl in Hsafe, Hk.
    destruct Hsafe as (_ & Hsafe). rewrite <- Hdb in Hd.
    destruct (Hsafe w Hd) as (Hframe & Hbt & d' & Hd' & _ & _).
    destruct (Hk w Hd d' Hd') as (Hun' & Hk').
    rewrite Hbt, Htasks. simpl. rewrite app_nil_r.
    assert (forall p, p ∈ l1 ++ l2 -> ObjectId p.1 <> inr o) as Hother.
    { intros p Hp. rewrite <- Hid.
      apply (target_distinct (fun p => ObjectId p.1) l1 l2 (project_id, Vis c k)); [|done].
      by rewrite <- Hsplit. }
    split; simpl.
    + intros o' d0 Hd0. destruct (decide (o' = o)) as [->|Hne].
      * rewrite Hd' in Hd0. by injection Hd0 as <-.
      * rewrite (Hframe o' Hne), Hdb in Hd0. by apply (Hdocs o').
    + intros p Hp o' d0 Ho' Hd0.
      assert (p = (project_id, k (perform c w).1) \/ p ∈ l1 ++ l2) as [->|Hp'].
      { apply elem_of_app in Hp as [Hp|Hp]; [right; apply elem_of_app; by left|].
        apply elem_of_cons in Hp as [->|Hp]; [by left|].
        right. apply elem_of_app. by right. }
      * simpl in *. rewrite Hid in Ho'. injection Ho' as <-.
        rewrite Hd' in Hd0. by injection Hd0 as <-.
      * assert (p ∈ procs s) as Hps.
        { rewrite Hsplit. apply elem_of_app. apply elem_of_app in Hp' as [?|?];
            [by left|right; by right]. }
        rewrite Hframe, Hdb in Hd0; [by apply (Hkeeps p Hps)|].
        intros ->. by apply (Hother p Hp').
  - split; simpl; [done|].
    intros p Hp. apply Hkeeps. rewrite Hsplit.
    apply elem_of_app. apply elem_of_app in Hp as [?|?]; [by left|right; by right].
Qed.

Lemma reachable_never_approvable (s : system) : reachable s -> never_approvable s.
Proof.
  induction 1 as [|s s' Hreach IH Hstep].
  - split; simpl.
    + intros o d. by rewrite lookup_empty.
    + intros p Hp. by apply elem_of_nil in Hp.
  - apply (never_approvable_step s); [by apply reachable_invariant|done|done].
Qed.

(** X14. In every state the server can reach, no record has a human
    approval or the status "pending_approval", "approved" or "rejected":
    every pipeline run ends in "needs_revision" or "error".  Hence every
    [approve_project] request fails with an HTTP 400 or 404 and changes
    nothing, whatever the project id, the flag and the store driver. *)
Theorem approval_is_unreachable (s : system) :
  reachable s ->
  (forall o d, sdb s !! o = Some d ->
     Document.human_approval d = None /\
     Document.status d <> "pending_approval" /\
     Document.status d <> "approved" /\ Document.status d <> "rejected") /\
  (forall project_id approval w, db w = sdb s ->
     exists status_code detail w',
       run (approve_project project_id approval) w
         = (inl (HTTPException status_code detail), w') /\
       (status_code = 400 \/ status_code = 404)%Z /\ db w' = db w).
Proof.
  intros Hreach. destruct (reachable_never_approvable s Hreach) as (Hdocs & _).
  assert (forall o d, sdb s !! o = Some d ->
            Document.status d <> "pending_approval") as Hpa.
  { intros o d Hd. destruct (Hdocs o d Hd) as (_ & Hin).
    intros E. rewrite E in Hin. by destruct Hin as [|[|[|[|]]]]. }
  split.
  - intros o d Hd. destruct (Hdocs o d Hd) as (Hh & Hin).
    split; [exact Hh|]. split; [by apply (Hpa o)|].
    split; intros E; rewrite E in Hin; by destruct Hin as [|[|[|[|]]]].
  - intros project_id approval w Hdb.
    destruct (ObjectId project_id) as [msg|o] eqn:Hid.
    { unfold approve_project, ObjectId_. rewrite Hid. simpl.
      eexists _, _, _. split; [reflexivity|]. split; [by left|done]. }
    destruct (db w !! o) as [d|] eqn:Hd.
    + destruct (approve_project_refused project_id approval w o d Hid Hd)
        as (detail & w' & Hrun & Hdb').
      { apply (Hpa o). by rewrite <- Hdb. }
      exists 400%Z, detail, w'. split; [exact Hrun|]. split; [by left|done].
    + unfold approve_project, ObjectId_. rewrite Hid. simpl.
      destruct (faults w 0) as [m|]; simpl.
      * eexists _, _, _. split; [reflexivity|]. split; [by left|done].
      * rewrite Hd. simpl.
        eexists _, _, _. split; [reflexivity|]. split; [by right|done].
Qed.

(** X15. In every state the server can reach, with a working store,
    [get_statistics] reports zero records pending approval, zero approved
    and zero rejected. *)
Theorem statistics_never_count_an_approval (s : system) (w : world) :
  reachable s -> db w = sdb s ->
  faults w 0 = None -> faults w 1 = None -> faults w 2 = None -> faults w 3 = None ->
  exists st w',
    get_statistics w = (inr st, w') /\
    total_projects st = Z.of_nat (size (sdb s)) /\
    pending_approval st = 0%Z /\ approved st = 0%Z /\ rejected st = 0%Z.
Proof.
  intros Hreach Hdb Hf0 Hf1 Hf2 Hf3.
  destruct (reachable_never_approvable s Hreach) as (Hdocs & _).
  assert (forall status, status = "pending_approval" \/ status = "approved" \/
                         status = "rejected" ->
            count (Some status) (db w) = 0%nat) as Hzero.
  { intros status Hst. apply count_none. intros o d Hd E.
    rewrite Hdb in Hd. destruct (Hdocs o d Hd) as (_ & Hin). rewrite E in Hin.
    destruct Hst as [->|[->| ->]]; by destruct Hin as [|[|[|[|]]]]. }
  unfold get_statistics, action_bind, count_documents, action_ret. simpl.
  rewrite Hf0. simpl. unfold shift. rewrite Hf1. simpl. unfold shift.
  rewrite Hf2. simpl. unfold shift. rewrite Hf3. simpl.
  eexists _, _. split; [reflexivity|]. simpl.
  rewrite count_all, !Hzero, Hdb by eauto. done.
Qed.

End BackendProofs.

#[local] Existing Instance hex_driver.

Example review_of_generated_design :
  Review.score (review_payload (design_payload 0%Z) 1%Z) = 70%Z /\
  Review.status (review_payload (design_payload 0%Z) 1%Z) = "needs_revision".
Proof. split; reflexivity. Qed.

(** ** The theorems at the sample worlds *)

Lemma review_score_rule_witness :
  exists r,
    (run (ai_agent_2_review_design keyword_design "a web shop") quiet_world).1 = inr r /\
    Review.score r = 85%Z /\ Review.status r = "approved".
Proof.
  destruct (review_score_rule keyword_design "a web shop" quiet_world)
    as (r & Hrun & _ & _ & Hfull).
  exists r. split; [exact Hrun|]. apply Hfull; reflexivity.
Defined.

Lemma create_project_pending_witness :
  exists w',
    run (create_project shop) quiet_world =
      (inr (ProjectResponse.mk "0123456789abcdef01234567" "shop" "a web shop"
              "pending" 0%Z None None None), w') /\
    db w' = <[oid0 := Document.mk "shop" "a web shop" "pending" 0%Z
                         None None None None]> ∅ /\
    background_tasks w' = [("0123456789abcdef01234567", "a web shop")].
Proof.
  apply (create_project_pending shop quiet_world); reflexivity.
Defined.

Lemma approve_project_gate_witness :
  exists w',
    run (approve_project "0123456789ABCDEF01234567" (ApprovalRequest.mk false None))
        shop_awaiting
      = (inr (Reply "Project rejected" "0123456789ABCDEF01234567"), w') /\
    db w' !! oid0 =
      Some (Document.mk "shop" "a web shop" "rejected" 0%Z
              (Some (design_payload 1%Z)) None
              (Some (HumanApproval.mk false "" 0%Z "Human Reviewer")) None).
Proof.
  destruct (approve_project_gate "0123456789ABCDEF01234567"
              (ApprovalRequest.mk false None) shop_awaiting oid0
              (Document.mk "shop" "a web shop" "pending_approval" 0%Z
                 (Some (design_payload 1%Z)) None None None)
              eq_refl eq_refl) as [_ Hpending].
  destruct (Hpending eq_refl eq_refl eq_refl) as (w' & Hrun & Hdb).
  exists w'. split; [exact Hrun|]. rewrite Hdb. apply lookup_insert_eq.
Defined.

Lemma regenerate_design_resets_witness :
  exists w',
    run (regenerate_design "0123456789abcdef01234567") shop_awaiting
      = (inr (Reply "Design regeneration started" "0123456789abcdef01234567"), w') /\
    db w' =
      <[oid0 := Document.mk "shop" "a web shop" "pending" 0%Z None None None None]>
        (db shop_awaiting) /\
    background_tasks w' = [("0123456789abcdef01234567", "a web shop")].
Proof.
  apply (regenerate_design_resets "0123456789abcdef01234567" shop_awaiting oid0
           (Document.mk "shop" "a web shop" "pending_approval" 0%Z
              (Some (design_payload 1%Z)) None None None)); reflexivity.
Defined.

Lemma get_project_missing_is_400_witness :
  exists detail w',
    run (get_project "0123456789abcdef01234567") quiet_world
      = (inl (HTTPException 400 detail), w') /\
    detail = "404: Project not found".
Proof.
  destruct (get_project_missing_is_400 "0123456789abcdef01234567" quiet_world)
    as [(detail & w' & Hrun & _ & Hdetail) _].
  { intros o _. apply lookup_empty. }
  exists detail, w'. split; [exact Hrun|].
  rewrite (Hdetail oid0 eq_refl eq_refl). reflexivity.
Defined.

Lemma pipeline_final_status_witness :
  exists d' r,
    db (run (pipeline_try "0123456789abcdef01234567" "a web shop") shop_created).2
      !! oid0 = Some d' /\
    Document.review d' = Some r /\
    Document.status d' =
      (if (80 <=? Review.score r)%Z then "pending_approval" else "needs_revision") /\
    Document.status d' <> "generating" /\ Document.status d' <> "reviewing".
Proof.
  apply (pipeline_final_status "0123456789abcdef01234567" "a web shop" shop_created
           (run (pipeline_try "0123456789abcdef01234567" "a web shop") shop_created).2
           oid0 (Document.mk "shop" "a web shop" "pending" 0%Z None None None None));
    reflexivity.
Defined.

Lemma pipeline_exception_recorded_witness :
  exists w2,
    run (process_ai_pipeline "0123456789abcdef01234567" "a web shop") shop_store_blip
      = (inr tt, w2) /\
    db w2 !! oid0 =
      Some (Document.mk "shop" "a web shop" "error" 0%Z None None None
              (Some "connection reset")) /\
    stdout w2 = ["Error in AI pipeline: connection reset"].
Proof.
  destruct (pipeline_exception_recorded "0123456789abcdef01234567" "a web shop"
              shop_store_blip
              (run (pipeline_try "0123456789abcdef01234567" "a web shop")
                 shop_store_blip).2
              (PyMongoError "connection reset") eq_refl) as (_ & Hrecorded & _).
  destruct (Hrecorded oid0
              (Document.mk "shop" "a web shop" "pending" 0%Z None None None None)
              eq_refl eq_refl eq_refl) as (w2 & Hrun & Hdb & Hout).
  exists w2. split; [exact Hrun|]. split; [|exact Hout].
  rewrite Hdb. apply lookup_insert_eq.
Defined.

(** C6, as stated, fails: the second update of the [try] suite raises, the
    handler's own update raises as well, the exception leaves
    [process_ai_pipeline], and the record keeps the status "generating" with
    no [error_message]. *)
Lemma pipeline_exception_lost :
  (run (pipeline_try "0123456789abcdef01234567" "a web shop") shop_store_lost).1
    = inl (PyMongoError "connection closed") /\
  (run (process_ai_pipeline "0123456789abcdef01234567" "a web shop") shop_store_lost).1
    = inl (PyMongoError "connection closed") /\
  db (run (process_ai_pipeline "0123456789abcdef01234567" "a web shop")
        shop_store_lost).2 !! oid0
    = Some (Document.mk "shop" "a web shop" "generating" 0%Z None None None None).
Proof. split; [reflexivity|]. split; reflexivity. Qed.

(** C8, as stated, fails: the same calls made five clock ticks later return
    payloads that differ from the earlier ones (in their timestamps). *)
Lemma agents_differ_across_clock :
  exists d1 d2 r1 r2,
    (run (ai_agent_1_generate_design "a web shop") quiet_world).1 = inr d1 /\
    (run (ai_agent_1_generate_design "a web shop") later_world).1 = inr d2 /\
    d1 <> d2 /\
    (run (ai_agent_2_review_design keyword_design "a web shop") quiet_world).1 = inr r1 /\
    (run (ai_agent_2_review_design keyword_design "a web shop") later_world).1 = inr r2 /\
    r1 <> r2.
Proof.
  exists (design_payload 0%Z), (design_payload 5%Z),
    (review_payload keyword_design 0%Z), (review_payload keyword_design 5%Z).
  split; [reflexivity|]. split; [reflexivity|].
  split; [intros E; apply (f_equal Design.timestamp) in E; discriminate E|].
  split; [reflexivity|]. split; [reflexivity|].
  intros E. apply (f_equal Review.timestamp) in E. discriminate E.
Qed.

Lemma agents_fixed_up_to_timestamp_witness :
  exists d r,
    (run (ai_agent_1_generate_design "a web shop") quiet_world).1 = inr d /\
    (run (ai_agent_1_generate_design "a landing page") quiet_world).1 = inr d /\
    (run (ai_agent_2_review_design keyword_design "a web shop") quiet_world).1 = inr r /\
    (run (ai_agent_2_review_design keyword_design "a landing page") quiet_world).1 = inr r.
Proof.
  destruct (agents_fixed_up_to_timestamp "a web shop" "a landing page" keyword_design
              quiet_world quiet_world)
    as (d1 & d2 & r1 & r2 & Hd1 & Hd2 & Hr1 & Hr2 & Hrest).
  destruct Hrest as (_ & _ & _ & _ & _ & _ & _ & _ & _ & _ & _ & Hsame).
  destruct (Hsame eq_refl) as [<- <-].
  exists d1, r1. by repeat split.
Defined.

Lemma server_generating_reachable : reachable server_generating.
Proof.
  apply (reachable_step server_created server_generating).
  - apply (reachable_step (System ∅ []) server_created); [apply reachable_init|].
    apply serve_step_step; [reflexivity|reflexivity|exact I].
  - apply resume_head_step; [exact I|reflexivity|reflexivity].
Defined.

Lemma payloads_wait_for_their_stage_witness :
  sdb server_generating !! oid0
    = Some (Document.mk "shop" "a web shop" "generating" 0%Z None None None None) /\
  forall d, sdb server_generating !! oid0 = Some d ->
    (Document.status d = "pending" \/ Document.status d = "generating" ->
     Document.design d = None) /\
    (Document.status d = "pending" \/ Document.status d = "generating" \/
     Document.status d = "reviewing" -> Document.review d = None) /\
    (forall h, Document.human_approval d = Some h ->
       Document.status d = if HumanApproval.approved h then "approved" else "rejected").
Proof.
  split; [reflexivity|].
  exact (payloads_wait_for_their_stage server_generating server_generating_reachable oid0).
Defined.

(** ** The further theorems at the sample worlds *)

Lemma delete_project_removes_witness :
  exists w',
    delete_project "0123456789abcdef01234567" shop_created
      = (inr (Reply "Project deleted successfully" "0123456789abcdef01234567"), w') /\
    db w' !! oid0 = None.
Proof.
  destruct (delete_project_removes "0123456789abcdef01234567" shop_created oid0
              (Document.mk "shop" "a web shop" "pending" 0%Z None None None None)
              eq_refl eq_refl eq_refl) as (w' & Hrun & _ & Hgone & _).
  by exists w'.
Defined.

Lemma delete_project_missing_is_400_witness :
  exists w',
    delete_project "0123456789abcdef01234567" quiet_world
      = (inl (HTTPException 400 "404: Project not found"), w').
Proof.
  destruct (delete_project_missing_is_400 "0123456789abcdef01234567" quiet_world)
    as (detail & w' & Hrun & _ & Hdetail).
  { intros o _. apply lookup_empty. }
  exists w'. rewrite Hrun, (Hdetail oid0 eq_refl eq_refl). reflexivity.
Defined.

Lemma regenerate_design_missing_is_400_witness :
  exists w',
    run (regenerate_design "0123456789abcdef01234567") quiet_world
      = (inl (HTTPException 400 "404: Project not found"), w') /\
    background_tasks w' = [].
Proof.
  destruct (regenerate_design_missing_is_400 "0123456789abcdef01234567" quiet_world)
    as (detail & w' & Hrun & _ & Htasks & Hdetail).
  { intros o _. apply lookup_empty. }
  exists w'. rewrite Hrun, (Hdetail oid0 eq_refl eq_refl). by split.
Defined.

Lemma failed_request_changes_nothing_witness :
  db (run (serve (ReqRegenerate "0123456789abcdef01234567")) shop_store_blip).2
    = db shop_store_blip.
Proof.
  destruct (failed_request_changes_nothing (ReqRegenerate "0123456789abcdef01234567")
              "0123456789abcdef01234567" shop_store_blip) as [Hserve _].
  exact (proj1 (Hserve _ _ eq_refl)).
Defined.

Lemma guarded_routes_raise_client_errors_witness :
  exists detail,
    (run (get_project "0123456789abcdef01234567") store_down).1
      = inl (HTTPException 400 detail).
Proof.
  destruct (guarded_routes_raise_client_errors "0123456789abcdef01234567"
              (ApprovalRequest.mk true None) store_down) as [Hget _].
  destruct (Hget _ _ eq_refl) as (detail & Hdetail).
  exists detail. by rewrite <- Hdetail.
Defined.


Lemma create_then_delete_witness :
  exists resp w1 r w2,
    run (create_project shop) quiet_world = (inr resp, w1) /\
    delete_project (ProjectResponse.id resp) w1 = (inr r, w2) /\
    db w2 = ∅.
Proof.
  destruct (create_then_delete shop quiet_world eq_refl eq_refl eq_refl)
    as (resp & w1 & r & w2 & Hcreate & Hdelete & Hdb & _).
  by exists resp, w1, r, w2.
Defined.

Lemma pipeline_touches_only_its_record_witness :
  exists d',
    db (run (process_ai_pipeline "0123456789abcdef01234567" "a web shop")
          shop_store_lost).2 !! oid0 = Some d' /\
    Document.name d' = "shop" /\ Document.requirements d' = "a web shop" /\
    Document.created_at d' = 0%Z /\ Document.human_approval d' = None.
Proof.
  destruct (pipeline_touches_only_its_record "0123456789abcdef01234567" "a web shop"
              shop_store_lost) as (_ & _ & Hrecord).
  destruct (Hrecord oid0
              (Document.mk "shop" "a web shop" "pending" 0%Z None None None None)
              eq_refl) as (d' & Hd' & Hname & Hreq & Hcreated & Hh & _).
  by exists d'.
Defined.

Lemma pipeline_ends_in_needs_revision_witness :
  exists w' r,
    run (process_ai_pipeline "0123456789abcdef01234567" "a web shop") shop_created
      = (inr tt, w') /\
    Review.score r = 70%Z /\
    db w' !! oid0 =
      Some (Document.mk "shop" "a web shop" "needs_revision" 0%Z
              (Some (design_payload 1%Z)) (Some r) None None).
Proof.
  destruct (pipeline_ends_in_needs_revision "0123456789abcdef01234567" "a web shop"
              shop_created oid0
              (Document.mk "shop" "a web shop" "pending" 0%Z None None None None)
              eq_refl eq_refl eq_refl eq_refl eq_refl)
    as (w' & r & Hrun & Hdb & _ & Hscore & _).
  exists w', r. split; [exact Hrun|]. split; [exact Hscore|].
  rewrite Hdb. apply lookup_insert_eq.
Defined.

Lemma review_approved_iff_no_issues_witness :
  exists r,
    (run (ai_agent_2_review_design keyword_design "a web shop") quiet_world).1 = inr r /\
    Review.issues r = [] /\ Review.status r = "approved".
Proof.
  destruct (review_approved_iff_no_issues keyword_design "a web shop" quiet_world)
    as (r & Hrun & Hiff & _ & _ & Hlen).
  assert (Review.issues r = []) as Hnone.
  { destruct (Review.issues r); [reflexivity|discriminate Hlen]. }
  exists r. split; [exact Hrun|]. split; [exact Hnone|]. by apply Hiff.
Defined.

Lemma approve_project_is_final_witness :
  exists r w1 detail w2,
    run (approve_project "0123456789abcdef01234567" (ApprovalRequest.mk false None))
        shop_awaiting = (inr r, w1) /\
    run (approve_project "0123456789abcdef01234567" (ApprovalRequest.mk true None)) w1
      = (inl (HTTPException 400 detail), w2) /\
    db w2 = db w1.
Proof.
  destruct (approve_project_is_final "0123456789abcdef01234567"
              (ApprovalRequest.mk false None) (ApprovalRequest.mk true None)
              shop_awaiting oid0
              (Document.mk "shop" "a web shop" "pending_approval" 0%Z
                 (Some (design_payload 1%Z)) None None None)
              eq_refl eq_refl eq_refl eq_refl eq_refl) as (r & w1 & Hfirst & Hsecond).
  destruct (Hsecond w1 eq_refl) as (detail & w2 & Hrun & Hdb).
  by exists r, w1, detail, w2.
Defined.

Lemma count_single (query : option string) (d : Document.t) :
  @count hex_driver query {[ oid0 := d ]} = if matches query d then 1%nat else 0%nat.
Proof.
  etransitivity;
    [apply (count_insert (H:=hex_driver) query ∅ oid0 d (lookup_empty _))|].
  etransitivity;
    [apply (f_equal (Nat.add _)); apply (count_empty (H:=hex_driver) query)|].
  by destruct (matches query d).
Qed.

Lemma get_statistics_counts_witness :
  exists st w',
    get_statistics shop_awaiting = (inr st, w') /\
    total_projects st = 1%Z /\ pending_approval st = 1%Z /\
    approved st = 0%Z /\ rejected st = 0%Z.
Proof.
  destruct (get_statistics_counts shop_awaiting eq_refl eq_refl eq_refl eq_refl)
    as (st & w' & Hrun & _ & Htotal & Hpending & Happroved & Hrejected & _).
  exists st, w'. split; [exact Hrun|].
  rewrite Htotal, Hpending, Happroved, Hrejected.
  split; [exact (f_equal Z.of_nat (map_size_singleton oid0 _))|].
  split; [exact (f_equal Z.of_nat (count_single (Some "pending_approval") _))|].
  split; [exact (f_equal Z.of_nat (count_single (Some "approved") _))|].
  exact (f_equal Z.of_nat (count_single (Some "rejected") _)).
Defined.

Lemma unguarded_routes_leak_driver_errors_witness :
  (run (create_project shop) store_down).1 = inl (PyMongoError "connection refused") /\
  exists m, (get_statistics store_down).1 = inl (PyMongoError m).
Proof.
  split; [reflexivity|].
  destruct (unguarded_routes_leak_driver_errors shop store_down) as [_ Hstats].
  destruct (Hstats _ _ eq_refl) as (m & Hm & _).
  exists m. by rewrite <- Hm.
Defined.

Lemma approval_is_unreachable_witness :
  exists status_code detail w',
    run (approve_project "0123456789abcdef01234567" (ApprovalRequest.mk true None))
        generating_world
      = (inl (HTTPException status_code detail), w') /\
    (status_code = 400 \/ status_code = 404)%Z /\ db w' = db generating_world.
Proof.
  destruct (approval_is_unreachable server_generating server_generating_reachable)
    as [_ Hrefused].
  exact (Hrefused "0123456789abcdef01234567" (ApprovalRequest.mk true None)
           generating_world eq_refl).
Defined.

Lemma statistics_never_count_an_approval_witness :
  exists st w',
    get_statistics generating_world = (inr st, w') /\
    total_projects st = 1%Z /\
    pending_approval st = 0%Z /\ approved st = 0%Z /\ rejected st = 0%Z.
Proof.
  destruct (statistics_never_count_an_approval server_generating generating_world
              server_generating_reachable eq_refl eq_refl eq_refl eq_refl eq_refl)
    as (st & w' & Hrun & Htotal & Hrest).
  exists st, w'. split; [exact Hrun|]. split; [|exact Hrest].
  rewrite Htotal. by vm_compute.
Defined.
